(** * A model of [calculadora.py] (Calculadora em Python, v1.0.3)

    Shallow embedding of the interactive calculator: Python integers are
    [Z], Python floats are IEEE binary64 values ([spec_float] with 53 bits
    of precision and [emax = 1024]), strings are ASCII [string]s.  The
    calculator object is a record threaded through every method; each
    method consumes the lines it reads with [input()] from an explicit
    list of lines. *)

From Stdlib Require Import ZArith String Ascii List Bool Lia.
From Stdlib Require Import Floats.SpecFloat.
From Stdlib Require Import Sorting.Sorted Sorting.Permutation.
Import ListNotations.

Local Open Scope Z_scope.

(* ================================================================== *)
(** ** Python string primitives on ASCII strings *)

Module PyStr.

Local Open Scope string_scope.

(** [str.isspace] restricted to ASCII: [\t \n \v \f \r], the four
    separators [\x1c]..[\x1f], and the space. *)
Definition is_space (c : ascii) : bool :=
  let n := nat_of_ascii c in
  ((9 <=? n) && (n <=? 13))%nat || ((28 <=? n) && (n <=? 32))%nat.

Fixpoint lstrip (s : string) : string :=
  match s with
  | EmptyString => EmptyString
  | String c t => if is_space c then lstrip t else s
  end.

(** [s.rstrip(chars)] for a predicate on characters. *)
Fixpoint rstrip_by (p : ascii -> bool) (s : string) : string :=
  match s with
  | EmptyString => EmptyString
  | String c t =>
      match rstrip_by p t with
      | EmptyString => if p c then EmptyString else String c EmptyString
      | t' => String c t'
      end
  end.

Definition strip (s : string) : string := rstrip_by is_space (lstrip s).

(** [s.rstrip(c)] for a one-character argument. *)
Definition rstrip (c : ascii) (s : string) : string :=
  rstrip_by (fun a => Ascii.eqb a c) s.

(** [str.upper] on ASCII. *)
Definition upper_char (c : ascii) : ascii :=
  let n := nat_of_ascii c in
  if ((97 <=? n) && (n <=? 122))%nat then ascii_of_nat (n - 32) else c.

Fixpoint upper (s : string) : string :=
  match s with
  | EmptyString => EmptyString
  | String c t => String (upper_char c) (upper t)
  end.

(** [s.replace(c, r)] for a one-character pattern [c]. *)
Fixpoint replace1 (c : ascii) (r s : string) : string :=
  match s with
  | EmptyString => EmptyString
  | String a t => if Ascii.eqb a c then r ++ replace1 c r t else String a (replace1 c r t)
  end.

(** [s.replace(c1 c2, r)] for a two-character pattern: occurrences are
    found left to right and do not overlap. *)
Fixpoint replace2 (c1 c2 : ascii) (r s : string) : string :=
  match s with
  | EmptyString => EmptyString
  | String a t =>
      if Ascii.eqb a c1 then
        match t with
        | String b u =>
            if Ascii.eqb b c2 then r ++ replace2 c1 c2 r u
            else String a (replace2 c1 c2 r t)
        | EmptyString => String a EmptyString
        end
      else String a (replace2 c1 c2 r t)
  end.

(** Decimal digits. *)
Definition digit_char (d : Z) : ascii := ascii_of_nat (48 + Z.to_nat d).

Definition is_digit (c : ascii) : bool :=
  let n := nat_of_ascii c in ((48 <=? n) && (n <=? 57))%nat.

Definition digit_val (c : ascii) : Z := Z.of_nat (nat_of_ascii c) - 48.

(** The decimal digits of [n >= 0], prepended to [acc]; [fuel] bounds the
    number of digits. *)
Fixpoint digits_aux (fuel : nat) (n : Z) (acc : string) : string :=
  match fuel with
  | O => acc
  | S f =>
      let acc' := String (digit_char (n mod 10)) acc in
      if Z.ltb n 10 then acc' else digits_aux f (n / 10) acc'
  end.

Definition digits (n : Z) : string := digits_aux (S (Z.to_nat (Z.log2 n))) n EmptyString.

(** [str(n)] for a Python [int]. *)
Definition str_int (n : Z) : string :=
  if Z.ltb n 0 then "-" ++ digits (- n) else digits n.

(** [n] written with exactly [w] digits, left-padded with zeros
    (the fractional part of a fixed-point rendering). *)
Fixpoint zpad (w : nat) (n : Z) : string :=
  match w with
  | O => EmptyString
  | S w' => zpad w' (n / 10) ++ String (digit_char (n mod 10)) EmptyString
  end.

Fixpoint repeat_char (n : nat) (c : ascii) : string :=
  match n with
  | O => EmptyString
  | S k => String c (repeat_char k c)
  end.

Fixpoint contains (c : ascii) (s : string) : bool :=
  match s with
  | EmptyString => false
  | String a t => Ascii.eqb a c || contains c t
  end.

End PyStr.

(* ================================================================== *)
(** ** Python floats: IEEE binary64 *)

Module F64.

Import PyStr.
Local Open Scope string_scope.

Definition prec : Z := 53.
Definition emax : Z := 1024.

Definition add := SFadd prec emax.
Definition sub := SFsub prec emax.
Definition mul := SFmul prec emax.
Definition div := SFdiv prec emax.
Definition sqrt := SFsqrt prec emax.

(** The exact value of a finite float as a fraction [num / den],
    [den > 0]; [None] for infinities and NaN. *)
Definition exact (f : spec_float) : option (Z * Z) :=
  match f with
  | S754_zero _ => Some (0, 1)
  | S754_finite s m e =>
      let n := if s then Zneg m else Zpos m in
      if Z.leb 0 e then Some (n * 2 ^ e, 1) else Some (n, 2 ^ (- e))
  | _ => None
  end.

(** The binary64 value nearest to [p / q] (ties to even), with sign
    [neg]; [p >= 0] and [q > 0].  This is how CPython rounds decimal
    literals, [float(str)] and the true quotient of two [int]s. *)
Definition of_ratio (neg : bool) (p q : Z) : spec_float :=
  match p, q with
  | Zpos a, Zpos b => div (S754_finite neg a 0) (S754_finite false b 0)
  | _, _ => S754_zero neg
  end.

(** [float(n)] for an [int]: [None] is CPython's [OverflowError]
    ("int too large to convert to float"). *)
Definition of_int (n : Z) : option spec_float :=
  match binary_normalize prec emax n 0 false with
  | S754_infinity _ => None
  | f => Some f
  end.

(** [x.is_integer()] *)
Definition is_integer (f : spec_float) : bool :=
  match f with
  | S754_zero _ => true
  | S754_finite _ m e => Z.leb 0 e || Z.eqb (Zpos m mod 2 ^ (- e)) 0
  | _ => false
  end.

(** [int(x)]: truncation toward zero; [None] for infinities (CPython's
    [OverflowError]) and NaN ([ValueError]). *)
Definition trunc (f : spec_float) : option Z :=
  match f with
  | S754_zero _ => Some 0
  | S754_finite s m e =>
      let a := if Z.leb 0 e then Zpos m * 2 ^ e else Zpos m / 2 ^ (- e) in
      Some (if s then - a else a)
  | _ => None
  end.

Definition is_zero (f : spec_float) : bool :=
  match f with S754_zero _ => true | _ => false end.

(** [x < 0] *)
Definition ltz (f : spec_float) : bool :=
  match SFcompare f (S754_zero false) with Some Lt => true | _ => false end.

(** [1.0] *)
Definition one : spec_float := binary_normalize prec emax 1 0 false.

(** [v == w] and [v > w] (false when a NaN is involved). *)
Definition eqf (v w : spec_float) : bool :=
  match SFcompare v w with Some Eq => true | _ => false end.

Definition gtf (v w : spec_float) : bool :=
  match SFcompare v w with Some Gt => true | _ => false end.

(** [x > 0] *)
Definition gtz (f : spec_float) : bool := gtf f (S754_zero false).

(** [fabs(x)] *)
Definition abs (f : spec_float) : spec_float :=
  match f with
  | S754_zero _ => S754_zero false
  | S754_infinity _ => S754_infinity false
  | S754_finite _ m e => S754_finite false m e
  | S754_nan => S754_nan
  end.

(** CPython's [DOUBLE_IS_ODD_INTEGER(x)]: [fmod(fabs(x), 2.0) == 1.0]. *)
Definition is_odd_integer (f : spec_float) : bool :=
  is_integer f && match trunc f with Some z => Z.odd z | None => false end.

(** [fmod(x, y)] of the C library: exact, with the sign of [x]. *)
Definition fmod (x y : spec_float) : spec_float :=
  match x, y with
  | S754_nan, _ | _, S754_nan | S754_infinity _, _ | _, S754_zero _ => S754_nan
  | _, S754_infinity _ | S754_zero _, _ => x
  | S754_finite sx mx ex, S754_finite _ my ey =>
      let e := Z.min ex ey in
      let r := Z.rem (Zpos mx * 2 ^ (ex - e)) (Zpos my * 2 ^ (ey - e)) in
      if Z.eqb r 0 then S754_zero sx
      else binary_normalize prec emax (if sx then - r else r) e sx
  end.

(** *** [pow(x, y)] of the C library

    The exact power [x ^ y] (for [x > 0]) is enclosed between two
    fixed-point numbers with [W] fractional bits, from series for the
    logarithm and the exponential.  The C library's [pow] is taken to
    compute [x ^ y] with a relative error below [2 ^ -57] (and an absolute
    one below [2 ^ -1079]) before its final rounding to nearest, as
    glibc's [pow] does (its documented total error is 0.52 ulp); so when
    the enclosure widened by those errors rounds to a single float, that
    float is the result.  Otherwise the result is not determined by the
    model. *)

Definition W : Z := 300.
Definition escala : Z := 2 ^ W.

(** [p / q] rounded down and up, [q > 0]. *)
Definition fdiv (p q : Z) : Z := p / q.
Definition cdiv (p q : Z) : Z := - ((- p) / q).

(** Enclosure of [escala * atanh(a / b)] for [0 <= a] and [3 * a <= b]:
    [k] terms of [sum u ^ (2i+1) / (2i+1)], the power [escala * u ^ (2i+1)]
    enclosed by [plo, phi]; the rest of the series is below [1 / escala]
    after 100 terms. *)
Fixpoint atanh_aux (k : nat) (i plo phi a2 b2 slo shi : Z) {struct k} : Z * Z :=
  match k with
  | O => (slo, shi + 1)
  | Datatypes.S k' =>
      atanh_aux k' (i + 2) (fdiv (plo * a2) b2) (cdiv (phi * a2) b2) a2 b2
        (slo + fdiv plo i) (shi + cdiv phi i)
  end.

Definition atanh (a b : Z) : Z * Z :=
  atanh_aux 100 1 (fdiv (escala * a) b) (cdiv (escala * a) b) (a * a) (b * b) 0 0.

(** [ln 2 = 2 atanh(1/3)] *)
Definition ln2 : Z * Z := let '(l, h) := atanh 1 3 in (2 * l, 2 * h).

(** [ln x] for [x = m * 2 ^ e] ([m > 0]): with [x = M / 2^52 * 2^k],
    [2^52 <= M < 2^53], [ln x = k ln 2 + 2 atanh((M - 2^52) / (M + 2^52))]. *)
Definition ln (m : positive) (e : Z) : Z * Z :=
  let b := Z.log2 (Zpos m) in
  let bigM := Zpos m * 2 ^ (52 - b) in
  let k := e + b in
  let '(alo, ahi) := atanh (bigM - 2 ^ 52) (bigM + 2 ^ 52) in
  let '(l2lo, l2hi) := ln2 in
  if Z.leb 0 k then (k * l2lo + 2 * alo, k * l2hi + 2 * ahi)
  else (k * l2hi + 2 * alo, k * l2lo + 2 * ahi).

(** Enclosure of [escala * exp(r)] for [0 <= rlo / escala <= r <= rhi / escala < 1]:
    80 terms of the series, whose rest is below [1 / escala]. *)
Fixpoint exp_aux (k : nat) (i tlo thi rlo rhi slo shi : Z) {struct k} : Z * Z :=
  match k with
  | O => (slo, shi + 1)
  | Datatypes.S k' =>
      let tlo' := fdiv (tlo * rlo) (escala * i) in
      let thi' := cdiv (thi * rhi) (escala * i) in
      exp_aux k' (i + 1) tlo' thi' rlo rhi (slo + tlo') (shi + thi')
  end.

Definition exp (rlo rhi : Z) : Z * Z := exp_aux 80 1 escala escala rlo rhi escala escala.

(** The float nearest to [p * 2 ^ z], [p >= 0]. *)
Definition round (p z : Z) : spec_float :=
  of_ratio false (p * 2 ^ Z.max z 0) (2 ^ Z.max (- z) 0).

(** [pow(x, y)] for [x = m * 2 ^ e > 0], [x <> 1], and [y = ny / dy]
    finite and nonzero ([dy > 0]): [Some f] for the result [f] (an infinity
    when it overflows), [None] when the model does not determine it. *)
Definition pow_pos (m : positive) (e ny dy : Z) : option spec_float :=
  let '(llo, lhi) := ln m e in
  let '(tlo, thi) :=
    if Z.leb 0 ny then (fdiv (ny * llo) dy, cdiv (ny * lhi) dy)
    else (fdiv (ny * lhi) dy, cdiv (ny * llo) dy) in
  if Z.leb (710 * escala) tlo then Some (S754_infinity false)
  else if Z.leb thi (-746 * escala) then Some (S754_zero false)
  else
    let '(l2lo, l2hi) := ln2 in
    let n := if Z.leb 0 tlo then tlo / l2hi else tlo / l2lo in
    let '(rlo, rhi) :=
      if Z.leb 0 n then (tlo - n * l2hi, thi - n * l2lo)
      else (tlo - n * l2lo, thi - n * l2hi) in
    let '(elo, ehi) := exp rlo rhi in
    (* [x ^ y] lies in [elo * 2 ^ (n - W), ehi * 2 ^ (n - W)]; widen it *)
    let z := Z.min (n - W - 57) (-1079) in
    let lo := elo * (2 ^ 57 - 1) * 2 ^ (n - W - 57 - z) - 2 ^ (-1079 - z) in
    let hi := ehi * (2 ^ 57 + 1) * 2 ^ (n - W - 57 - z) + 2 ^ (-1079 - z) in
    let flo := round lo z in
    let fhi := round hi z in
    if eqf flo fhi then Some flo else None.

(** *** [float(s)] for a string *)

(** A run of digits in which single underscores may separate digits:
    returns the value accumulated onto [acc], the number of digits read
    (added to [n]) and the rest of the string. *)
Fixpoint digs (s : string) (acc : Z) (n : nat) {struct s} : Z * nat * string :=
  match s with
  | String c t =>
      if is_digit c then digs t (acc * 10 + digit_val c) (S n)
      else if Ascii.eqb c "_"%char && Nat.ltb 0 n then
        match t with
        | String c2 t2 =>
            if is_digit c2 then digs t2 (acc * 10 + digit_val c2) (S n) else (acc, n, s)
        | EmptyString => (acc, n, s)
        end
      else (acc, n, s)
  | EmptyString => (acc, n, s)
  end.

(** An optional sign: [true] for a minus sign. *)
Definition sign (s : string) : bool * string :=
  match s with
  | String c t =>
      if Ascii.eqb c "-"%char then (true, t)
      else if Ascii.eqb c "+"%char then (false, t) else (false, s)
  | EmptyString => (false, s)
  end.

(** A decimal literal [digits [. digits] [e [sign] digits]] with at least
    one mantissa digit, as [(D, k)] standing for [D * 10 ^ k]. *)
Definition parse_decimal (s : string) : option (Z * Z) :=
  let '(ip, ni, r1) := digs s 0 0 in
  let '(d, nf, r2) :=
    match r1 with
    | String c t => if Ascii.eqb c "."%char then digs t ip 0 else (ip, 0%nat, r1)
    | EmptyString => (ip, 0%nat, r1)
    end in
  if Nat.eqb (ni + nf) 0 then None else
  match r2 with
  | EmptyString => Some (d, - Z.of_nat nf)
  | String c t =>
      if Ascii.eqb c "e"%char || Ascii.eqb c "E"%char then
        let '(neg, t') := sign t in
        let '(ev, ne, r3) := digs t' 0 0 in
        match ne, r3 with
        | S _, EmptyString => Some (d, - Z.of_nat nf + (if neg then - ev else ev))
        | _, _ => None
        end
      else None
  end.

(** [float(s)]; [None] is CPython's [ValueError]. *)
Definition of_string (s : string) : option spec_float :=
  let '(neg, body) := sign (strip s) in
  let u := upper body in
  if String.eqb u "INF" || String.eqb u "INFINITY" then Some (S754_infinity neg)
  else if String.eqb u "NAN" then Some S754_nan
  else
    match parse_decimal body with
    | Some (d, k) => Some (of_ratio neg (d * 10 ^ Z.max k 0) (10 ^ Z.max (- k) 0))
    | None => None
    end.

End F64.

(* ================================================================== *)
(** ** Rendering floats: [repr(x)] and [f"{x:.10f}"] *)

Module FloatStr.

Import PyStr.
Local Open Scope string_scope.

(** Number of decimal digits of [n > 0]. *)
Definition ndigits (n : Z) : Z := Z.of_nat (String.length (digits n)).

(** [10 ^ e <= p / q] for [p, q > 0]. *)
Definition pow10_le (p q e : Z) : bool :=
  if Z.leb 0 e then Z.leb (q * 10 ^ e) p else Z.leb q (p * 10 ^ (- e)).

(** The decimal exponent [e] with [10 ^ e <= p / q < 10 ^ (e + 1)]. *)
Definition exp10 (p q : Z) : Z :=
  let est := ndigits p - ndigits q in
  if pow10_le p q est then est else est - 1.

(** [p / q] divided by [10 ^ k], as a fraction. *)
Definition scale (p q k : Z) : Z * Z := (p * 10 ^ Z.max (- k) 0, q * 10 ^ Z.max k 0).

(** Does the decimal [D * 10 ^ k] read back (as a literal) to the float
    [x > 0]? *)
Definition roundtrips (x : spec_float) (D k : Z) : bool :=
  match F64.of_ratio false (D * 10 ^ Z.max k 0) (10 ^ Z.max (- k) 0), x with
  | S754_finite false m e, S754_finite false m' e' => Pos.eqb m m' && Z.eqb e e'
  | _, _ => false
  end.

(** The shortest decimal that reads back to [x = p / q > 0], searched
    from [n] significant digits upward; among the two [n]-digit
    neighbours of [x] that read back, the nearer one (ties to the even
    digit).  Seventeen digits always suffice. *)
Fixpoint shortest (fuel : nat) (x : spec_float) (p q : Z) (n : Z) : Z * Z :=
  let k := exp10 p q - n + 1 in
  let '(a, b) := scale p q k in
  let lo := a / b in
  let r := a mod b in
  let hi := if Z.eqb r 0 then lo else lo + 1 in
  let okl := roundtrips x lo k in
  let okh := roundtrips x hi k in
  match fuel with
  | O => (lo, k)
  | S f =>
      if okl && okh then
        match Z.compare (2 * r) b with
        | Lt => (lo, k)
        | Gt => (hi, k)
        | Eq => if Z.even lo then (lo, k) else (hi, k)
        end
      else if okl then (lo, k)
      else if okh then (hi, k)
      else shortest f x p q (n + 1)
  end.

(** Remove trailing zero digits: [(D, k)] to [(D / 10, k + 1)]. *)
Fixpoint drop_zeros (fuel : nat) (D k : Z) : Z * Z :=
  match fuel with
  | O => (D, k)
  | S f => if Z.eqb (D mod 10) 0 then drop_zeros f (D / 10) (k + 1) else (D, k)
  end.

Definition exp_str (x : Z) : string :=
  (if Z.ltb x 0 then "-" else "+") ++ zpad (Nat.max 2 (String.length (digits (Z.abs x)))) (Z.abs x).

(** [repr] of a positive finite float from its shortest digits [ds]
    and decimal point position [decpt] (value [0.ds * 10 ^ decpt]):
    scientific notation when [decpt <= -4] or [decpt > 16]. *)
Definition layout (ds : string) (decpt : Z) : string :=
  let nd := Z.of_nat (String.length ds) in
  if Z.leb decpt (-4) || Z.ltb 16 decpt then
    match ds with
    | String d rest =>
        String d (if Z.eqb nd 1 then EmptyString else "." ++ rest)
          ++ "e" ++ exp_str (decpt - 1)
    | EmptyString => EmptyString
    end
  else if Z.leb decpt 0 then "0." ++ repeat_char (Z.to_nat (- decpt)) "0" ++ ds
  else if Z.ltb decpt nd then
    substring 0 (Z.to_nat decpt) ds ++ "." ++ substring (Z.to_nat decpt) (Z.to_nat (nd - decpt)) ds
  else ds ++ repeat_char (Z.to_nat (decpt - nd)) "0" ++ ".0".

(** [repr(x)] (= [str(x)]) for a Python float. *)
Definition repr (x : spec_float) : string :=
  match x with
  | S754_zero s => if s then "-0.0" else "0.0"
  | S754_infinity s => if s then "-inf" else "inf"
  | S754_nan => "nan"
  | S754_finite s m e =>
      let '(p, q) := if Z.leb 0 e then (Zpos m * 2 ^ e, 1) else (Zpos m, 2 ^ (- e)) in
      let '(D0, k0) := shortest 17 (S754_finite false m e) p q 1 in
      let '(D, k) := drop_zeros 17 D0 k0 in
      let ds := digits D in
      (if s then "-" else EmptyString) ++ layout ds (k + Z.of_nat (String.length ds))
  end.

(** [f"{x:.10f}"]: the exact value rounded to ten decimals, ties to even. *)
Definition fixed10 (x : spec_float) : string :=
  match x with
  | S754_infinity s => if s then "-inf" else "inf"
  | S754_nan => "nan"
  | _ =>
      let '(neg, p, q) :=
        match x with
        | S754_finite s m e =>
            if Z.leb 0 e then (s, Zpos m * 2 ^ e, 1) else (s, Zpos m, 2 ^ (- e))
        | S754_zero s => (s, 0, 1)
        | _ => (false, 0, 1)
        end in
      let a := p * 10 ^ 10 in
      let n0 := a / q in
      let r := a mod q in
      let N := match Z.compare (2 * r) q with
               | Lt => n0
               | Gt => n0 + 1
               | Eq => if Z.even n0 then n0 else n0 + 1
               end in
      (if neg then "-" else EmptyString) ++ digits (N / 10 ^ 10) ++ "." ++ zpad 10 (N mod 10 ^ 10)
  end.

End FloatStr.

(* ================================================================== *)
(** ** Python values and exceptions *)

Module Py.

Import PyStr.
Local Open Scope string_scope.

(** The numbers the calculator handles: [int] and [float]. *)
Inductive pyval :=
  | PInt (z : Z)
  | PFloat (f : spec_float).

(** The values an evaluated expression can produce in the modelled
    fragment of Python: numbers, [None], strings, the calculator object
    [self] and the builtin [setattr]. *)
Inductive value :=
  | VNum (n : pyval)
  | VNone
  | VStr (s : string)
  | VSelf
  | VSetattr.

Inductive exc :=
  | ZeroDivisionError
  | OverflowError
  | ValueError
  | TypeError
  | AttributeError
  | SyntaxError
  | EOFError.

(** A Python computation: a value, a raised exception, or behaviour
    outside the modelled fragment of Python. *)
Inductive res (A : Type) :=
  | Ok (a : A)
  | Raise (e : exc)
  | Unmodelled.
Arguments Ok {A} a.
Arguments Raise {A} e.
Arguments Unmodelled {A}.

Definition res_bind {A B} (r : res A) (k : A -> res B) : res B :=
  match r with
  | Ok a => k a
  | Raise e => Raise e
  | Unmodelled => Unmodelled
  end.

(** [float(v)] for a number. *)
Definition to_float (v : pyval) : res spec_float :=
  match v with
  | PInt z => match F64.of_int z with Some f => Ok f | None => Raise OverflowError end
  | PFloat f => Ok f
  end.

(** [a + b], [a - b], [a * b]: exact on two [int]s, otherwise on floats
    after converting an [int] operand. *)
Definition arith (iop : Z -> Z -> Z) (fop : spec_float -> spec_float -> spec_float)
    (a b : pyval) : res pyval :=
  match a, b with
  | PInt x, PInt y => Ok (PInt (iop x y))
  | _, _ => res_bind (to_float a) (fun fa => res_bind (to_float b) (fun fb => Ok (PFloat (fop fa fb))))
  end.

Definition add := arith Z.add F64.add.
Definition sub := arith Z.sub F64.sub.
Definition mul := arith Z.mul F64.mul.

(** [a / b]: two [int]s give the correctly rounded quotient. *)
Definition truediv (a b : pyval) : res pyval :=
  match a, b with
  | PInt x, PInt y =>
      if Z.eqb y 0 then Raise ZeroDivisionError else
      match F64.of_ratio (xorb (Z.ltb x 0) (Z.ltb y 0)) (Z.abs x) (Z.abs y) with
      | S754_infinity _ => Raise OverflowError
      | f => Ok (PFloat f)
      end
  | _, _ =>
      res_bind (to_float a) (fun fa => res_bind (to_float b) (fun fb =>
        if F64.is_zero fb then Raise ZeroDivisionError else Ok (PFloat (F64.div fa fb))))
  end.

(** [a % b] on two [int]s: the result has the sign of the divisor. *)
Definition imod (a b : Z) : res Z :=
  if Z.eqb b 0 then Raise ZeroDivisionError else Ok (Z.modulo a b).

(** CPython's [float_rem]: [a % b] on floats, with the sign of [b]. *)
Definition float_mod (x y : spec_float) : res spec_float :=
  if F64.is_zero y then Raise ZeroDivisionError else
  let m := F64.fmod x y in
  if F64.is_zero m then Ok (match y with S754_zero s | S754_infinity s | S754_finite s _ _ => S754_zero s
                                      | S754_nan => S754_zero false end)
  else if negb (Bool.eqb (F64.ltz y) (F64.ltz m)) then Ok (F64.add m y)
  else Ok m.

(** CPython's [float_pow], special cases first, then the C library's
    [pow] for a positive base other than [1]; a negative base with a
    non-integral exponent gives a [complex], outside the model. *)
Definition float_pow (v w : spec_float) : res spec_float :=
  if F64.is_zero w then Ok F64.one else
  match v, w with
  | S754_nan, _ => Ok v
  | _, S754_nan => if F64.eqf v F64.one then Ok F64.one else Ok w
  | _, S754_infinity sw =>
      let av := F64.abs v in
      if F64.eqf av F64.one then Ok F64.one
      else if Bool.eqb (negb sw) (F64.gtf av F64.one) then Ok (S754_infinity false)
      else Ok (S754_zero false)
  | S754_infinity sv, _ =>
      if F64.gtz w then Ok (if F64.is_odd_integer w then v else S754_infinity false)
      else Ok (if F64.is_odd_integer w then S754_zero sv else S754_zero false)
  | S754_zero sv, _ =>
      if F64.ltz w then Raise ZeroDivisionError
      else Ok (if F64.is_odd_integer w then v else S754_zero false)
  | S754_finite sv mv ev, _ =>
      if sv && negb (F64.is_integer w) then Unmodelled else
      let negate := sv && F64.is_odd_integer w in
      let sign (f : spec_float) := if negate then SFopp f else f in
      if F64.eqf (S754_finite false mv ev) F64.one then Ok (sign F64.one) else
      match F64.exact w with
      | Some (ny, dy) =>
          match F64.pow_pos mv ev ny dy with
          | Some (S754_infinity _) => Raise OverflowError
          | Some f => Ok (sign f)
          | None => Unmodelled
          end
      | None => Unmodelled
      end
  end.

(** [a ** b]: an [int] to a non-negative [int] power is exact; any other
    pair (a negative [int] exponent included) is computed by [float_pow]
    after converting both operands to [float]. *)
Definition pow (a b : pyval) : res pyval :=
  let by_float :=
    res_bind (to_float a) (fun fa => res_bind (to_float b) (fun fb =>
      res_bind (float_pow fa fb) (fun r => Ok (PFloat r)))) in
  match a, b with
  | PInt x, PInt y => if Z.leb 0 y then Ok (PInt (Z.pow x y)) else by_float
  | _, _ => by_float
  end.

(** [math.sqrt(x)] *)
Definition sqrt (a : pyval) : res pyval :=
  res_bind (to_float a) (fun f =>
    if F64.ltz f then Raise ValueError else Ok (PFloat (F64.sqrt f))).

(** [math.factorial(n)] for [n >= 0]. *)
Fixpoint fact_Z (k : nat) : Z :=
  match k with O => 1 | S k' => Z.of_nat k * fact_Z k' end.

Definition factorial (n : Z) : Z := fact_Z (Z.to_nat n).

(** [int(v)] *)
Definition to_int (v : pyval) : res Z :=
  match v with
  | PInt z => Ok z
  | PFloat f =>
      match F64.trunc f with
      | Some z => Ok z
      | None => match f with S754_nan => Raise ValueError | _ => Raise OverflowError end
      end
  end.

(** [v == 0] *)
Definition eq0 (v : pyval) : bool :=
  match v with PInt z => Z.eqb z 0 | PFloat f => F64.is_zero f end.

(** [v < 0] *)
Definition lt0 (v : pyval) : bool :=
  match v with PInt z => Z.ltb z 0 | PFloat f => F64.ltz f end.

(** [str(v)] *)
Definition str_num (v : pyval) : string :=
  match v with PInt z => str_int z | PFloat f => FloatStr.repr f end.

(** [Calculadora._formatar_numero(num)] *)
Definition formatar_numero (v : pyval) : string :=
  match v with
  | PInt z => str_int z
  | PFloat f =>
      if F64.is_integer f then
        match F64.trunc f with Some z => str_int z | None => EmptyString end
      else rstrip "." (rstrip "0" (FloatStr.fixed10 f))
  end.

(** [_formatar_numero] on an arbitrary value: anything that is neither an
    [int] nor has [is_integer] raises [AttributeError]. *)
Definition formatar (v : value) : res string :=
  match v with
  | VNum n => Ok (formatar_numero n)
  | _ => Raise AttributeError
  end.

End Py.

(* ================================================================== *)
(** ** The calculator object *)

Module Session.

Import PyStr Py.
Local Open Scope string_scope.

(** An entry of [self._historico]. *)
Record entrada := mk_entrada {
  timestamp : string;
  expressao : string;
  resultado : value;
  tipo : string
}.

(** The attributes of a [Calculadora] instance; [ultimo_resultado] is
    [VNone] while it is [None]. *)
Record calc := mk_calc {
  memoria : value;
  ultimo_resultado : value;
  historico : list entrada;
  total_operacoes : Z;
  max_historico : Z
}.

(** [Calculadora.__init__] *)
Definition inicial : calc :=
  {| memoria := VNum (PFloat (S754_zero false));
     ultimo_resultado := VNone;
     historico := [];
     total_operacoes := 0;
     max_historico := 50 |}.

Definition set_memoria (v : value) (c : calc) : calc :=
  {| memoria := v; ultimo_resultado := ultimo_resultado c; historico := historico c;
     total_operacoes := total_operacoes c; max_historico := max_historico c |}.

Definition set_ultimo (v : value) (c : calc) : calc :=
  {| memoria := memoria c; ultimo_resultado := v; historico := historico c;
     total_operacoes := total_operacoes c; max_historico := max_historico c |}.

Definition set_historico (h : list entrada) (c : calc) : calc :=
  {| memoria := memoria c; ultimo_resultado := ultimo_resultado c; historico := h;
     total_operacoes := total_operacoes c; max_historico := max_historico c |}.

Definition set_total (n : Z) (c : calc) : calc :=
  {| memoria := memoria c; ultimo_resultado := ultimo_resultado c; historico := historico c;
     total_operacoes := n; max_historico := max_historico c |}.

Definition set_max (n : Z) (c : calc) : calc :=
  {| memoria := memoria c; ultimo_resultado := ultimo_resultado c; historico := historico c;
     total_operacoes := total_operacoes c; max_historico := n |}.

(** [self._historico.pop(0)] when the list is longer than [max]. *)
Definition limitar (max : Z) (h : list entrada) : list entrada :=
  if Z.ltb max (Z.of_nat (length h)) then tl h else h.

(** [Calculadora._adicionar_ao_historico(expressao, resultado, tipo)];
    [ts] is the [datetime.now()] stamp. *)
Definition adicionar_ao_historico (ts expr : string) (r : value) (tp : string) (c : calc) : calc :=
  {| memoria := memoria c;
     ultimo_resultado := r;
     historico := limitar (max_historico c) (historico c ++ [mk_entrada ts expr r tp]);
     total_operacoes := total_operacoes c + 1;
     max_historico := max_historico c |}.

(** *** Methods as state transformers reading [input()] lines *)

Inductive step (A : Type) :=
  | Ret (a : A) (c : calc) (inp : list string)
  | Exn (e : exc) (c : calc)
  | Unk.
Arguments Ret {A} a c inp.
Arguments Exn {A} e c.
Arguments Unk {A}.

Definition M (A : Type) := calc -> list string -> step A.

Definition ret {A} (a : A) : M A := fun c inp => Ret a c inp.

Definition bind {A B} (m : M A) (k : A -> M B) : M B :=
  fun c inp =>
    match m c inp with
    | Ret a c' inp' => k a c' inp'
    | Exn e c' => Exn e c'
    | Unk => Unk
    end.

Notation "x <- m ;; k" := (bind m (fun x => k)) (at level 61, m at next level, right associativity).

Definition get : M calc := fun c inp => Ret c c inp.
Definition modify (f : calc -> calc) : M unit := fun c inp => Ret tt (f c) inp.

(** [input(prompt)]: the next line; [EOFError] when there is none. *)
Definition input : M string :=
  fun c inp => match inp with [] => Exn EOFError c | l :: r => Ret l c r end.

Definition lift {A} (r : res A) : M A :=
  fun c inp =>
    match r with Ok a => Ret a c inp | Raise e => Exn e c | Unmodelled => Unk end.

Definition is_set (v : value) : bool := match v with VNone => false | _ => true end.

(** One attempt of [Calculadora._obter_numero]: the stripped line is ['M']
    or ['U'] (any case), or is parsed by [float()]; [None] is the caught
    [ValueError], after which the loop asks again. *)
Definition numero_da_linha (c : calc) (l : string) : option value :=
  let e := strip l in
  if String.eqb (upper e) "M" then Some (memoria c)
  else if String.eqb (upper e) "U" && is_set (ultimo_resultado c) then Some (ultimo_resultado c)
  else match F64.of_string e with
       | Some f =>
           if F64.is_integer f then
             match F64.trunc f with Some z => Some (VNum (PInt z)) | None => None end
           else Some (VNum (PFloat f))
       | None => None
       end.

(** A [while True] loop around [_obter_numero] whose body checks the
    number with [valida]: [Ok (Some a)] leaves the loop with [a],
    [Ok None] prints an error and asks again, an exception escapes the
    loop. *)
Fixpoint ler_valido_aux {A} (valida : value -> res (option A)) (c : calc) (inp : list string)
    : step A :=
  match inp with
  | [] => Exn EOFError c
  | l :: r =>
      match numero_da_linha c l with
      | None => ler_valido_aux valida c r
      | Some v =>
          match valida v with
          | Ok (Some a) => Ret a c r
          | Ok None => ler_valido_aux valida c r
          | Raise e => Exn e c
          | Unmodelled => Unk
          end
      end
  end.

Definition ler_valido {A} (valida : value -> res (option A)) : M A :=
  fun c inp => ler_valido_aux valida c inp.

(** [Calculadora._obter_numero] *)
Definition obter_numero : M value := ler_valido (fun v => Ok (Some v)).

End Session.

(* ================================================================== *)
(** ** The arithmetic menu operations *)

Module Ops.

Import PyStr Py Session.
Local Open Scope string_scope.

Definition res_map {A B} (f : A -> B) (r : res A) : res B := res_bind r (fun a => Ok (f a)).

(** A binary numeric operator applied to two operands; operands that are
    not numbers (a string reached through ['U']) are not modelled. *)
Definition num_op (op : pyval -> pyval -> res pyval) (a b : value) : res value :=
  match a, b with
  | VNum x, VNum y => res_map VNum (op x y)
  | _, _ => Unmodelled
  end.

(** [int(v)] *)
Definition int_of_value (v : value) : res Z :=
  match v with VNum n => to_int n | _ => Unmodelled end.

(** [v == 0] *)
Definition is_zero_value (v : value) : bool :=
  match v with VNum n => eq0 n | _ => false end.

(** The common end of every arithmetic method: record, print the
    result with [_formatar_numero], wait for Enter. *)
Definition concluir (ts expr : string) (r : value) (tp : string) : M unit :=
  _ <- modify (adicionar_ao_historico ts expr r tp) ;;
  _ <- lift (formatar r) ;;
  _ <- input ;;
  ret tt.

(** [somar], [subtrair], [multiplicar], [potencia]: two operands, one
    operator. *)
Definition binaria (op : pyval -> pyval -> res pyval) (simbolo tp : string) (ts : string) : M unit :=
  a <- obter_numero ;;
  b <- obter_numero ;;
  r <- lift (num_op op a b) ;;
  fa <- lift (formatar a) ;;
  fb <- lift (formatar b) ;;
  concluir ts (fa ++ simbolo ++ fb) r tp.

Definition somar := binaria add " + " "Soma".
Definition subtrair := binaria sub " - " "Subtração".
Definition multiplicar := binaria mul " × " "Multiplicação".
Definition potencia := binaria pow " ^ " "Potência".

(** [dividir]: the denominator is asked again while it equals zero. *)
Definition dividir (ts : string) : M unit :=
  a <- obter_numero ;;
  b <- ler_valido (fun b => Ok (if is_zero_value b then None else Some b)) ;;
  r <- lift (num_op truediv a b) ;;
  fa <- lift (formatar a) ;;
  fb <- lift (formatar b) ;;
  concluir ts (fa ++ " ÷ " ++ fb) r "Divisão".

(** [resto_divisao]: both operands go through [int()]; the second is
    asked again while it is zero. *)
Definition resto_divisao (ts : string) : M unit :=
  a0 <- obter_numero ;;
  a <- lift (int_of_value a0) ;;
  b <- ler_valido (fun v => res_map (fun b => if Z.eqb b 0 then None else Some b) (int_of_value v)) ;;
  r <- lift (imod a b) ;;
  _ <- modify (adicionar_ao_historico ts (str_int a ++ " % " ++ str_int b) (VNum (PInt r)) "Resto Divisão") ;;
  _ <- input ;;
  ret tt.

(** [raiz_quadrada]: the number is asked again while it is negative. *)
Definition raiz_quadrada (ts : string) : M unit :=
  n <- ler_valido (fun v => match v with
                            | VNum x => Ok (if lt0 x then None else Some x)
                            | _ => Unmodelled
                            end) ;;
  r <- lift (sqrt n) ;;
  fn <- lift (formatar (VNum n)) ;;
  concluir ts ("√" ++ fn) (VNum r) "Raiz Quadrada".

(** [porcentagem]: [(valor * percentual) / 100]. *)
Definition porcentagem (ts : string) : M unit :=
  v <- obter_numero ;;
  p <- obter_numero ;;
  m <- lift (num_op mul v p) ;;
  r <- lift (num_op truediv m (VNum (PInt 100))) ;;
  fv <- lift (formatar v) ;;
  fp <- lift (formatar p) ;;
  concluir ts (fv ++ "% de " ++ fp) r "Porcentagem".

(** [fatorial]: [n = int(...)] is asked again while [n < 0] (error) and
    while [n > 20] (warning). *)
Definition fatorial (ts : string) : M unit :=
  n <- ler_valido (fun v => res_map (fun n => if Z.ltb n 0 then None
                                              else if Z.ltb 20 n then None
                                              else Some n) (int_of_value v)) ;;
  _ <- modify (adicionar_ao_historico ts (str_int n ++ "!") (VNum (PInt (factorial n))) "Fatorial") ;;
  _ <- input ;;
  ret tt.

End Ops.

(* ================================================================== *)
(** ** [eval] on a fragment of Python expressions

    [calcular_expressao] hands the text to Python's [eval] inside the
    method, so the expression sees [self], the builtins and the module's
    globals.  The fragment modelled: numeric literals (with exponents),
    string literals, the names [self] and [setattr], [+ - * / % **],
    unary [+ -], [or], parentheses and calls.  Everything else (attribute
    access, subscripts, any other name, other operators and keywords) is
    [Unmodelled]; through it an expression can also change the calculator
    ([self._historico.clear()], [vars(self).update(...)],
    [self._adicionar_ao_historico(...)]), so [setattr] is one way among
    many for [eval] to change the state.  [Menu.calcular_expressao_com]
    covers any such evaluation. *)

Module Expr.

Import PyStr Py Session.
Local Open Scope string_scope.

Inductive token :=
  | TNum (v : pyval)
  | TStr (s : string)
  | TName (x : string)
  | TOp (o : string)
  | TLPar
  | TRPar
  | TComma.

Definition is_alpha (c : ascii) : bool :=
  let n := nat_of_ascii c in
  ((65 <=? n) && (n <=? 90))%nat || ((97 <=? n) && (n <=? 122))%nat || Ascii.eqb c "_"%char.

Definition is_alnum (c : ascii) : bool := is_alpha c || is_digit c.

(** The longest prefix of characters satisfying [p], and the rest. *)
Fixpoint span (p : ascii -> bool) (s : string) : string * string :=
  match s with
  | String c t => if p c then let '(a, b) := span p t in (String c a, b) else (EmptyString, s)
  | EmptyString => (EmptyString, EmptyString)
  end.

Fixpoint digits_value (s : string) (acc : Z) : Z :=
  match s with
  | String c t => digits_value t (acc * 10 + digit_val c)
  | EmptyString => acc
  end.

(** A character that cannot follow a number literal in the fragment
    (letters, digits, [_], [.] and quotes start prefixes, exponents,
    attribute accesses or syntax errors). *)
Definition bad_after_number (s : string) : bool :=
  match s with
  | String c _ => is_alnum c || Ascii.eqb c "."%char || Ascii.eqb c "'"%char || Ascii.eqb c "034"%char
  | EmptyString => false
  end.

Definition all_zeros (s : string) : bool :=
  forallb (fun c => Ascii.eqb c "0"%char) (list_ascii_of_string s).

(** The value of a decimal literal [D * 10 ^ k], [D] written with [nd]
    digits, rounded to the nearest float as CPython does; beyond
    [10 ^ 309] it is [inf], below [10 ^ -324] it is [0.0]. *)
Definition decimal_float (d k : Z) (nd : nat) : spec_float :=
  if Z.eqb d 0 then S754_zero false
  else if Z.leb 309 k then S754_infinity false
  else if Z.leb (k + Z.of_nat nd) (-324) then S754_zero false
  else F64.of_ratio false (d * 10 ^ Z.max k 0) (10 ^ Z.max (- k) 0).

(** The literal [ip.fp] with exponent [ex] (either part may be empty,
    not both). *)
Definition float_literal (ip fp : string) (ex : Z) : pyval :=
  PFloat (decimal_float (digits_value (ip ++ fp) 0) (ex - Z.of_nat (String.length fp))
            (String.length (ip ++ fp))).

(** An optional exponent [e [+|-] digits] after the digits of a number:
    [Some (ex, rest)], with [ex = 0] when there is none; [None] when [e]
    is not followed by digits. *)
Definition exponent (s : string) : option (Z * string) :=
  match s with
  | String c t =>
      if Ascii.eqb c "e"%char || Ascii.eqb c "E"%char then
        let '(neg, t1) :=
          match t with
          | String d t' =>
              if Ascii.eqb d "-"%char then (true, t')
              else if Ascii.eqb d "+"%char then (false, t') else (false, t)
          | EmptyString => (false, t)
          end in
        let '(ds, r) := span is_digit t1 in
        if String.eqb ds EmptyString then None
        else Some (if neg then - digits_value ds 0 else digits_value ds 0, r)
      else Some (0, s)
  | EmptyString => Some (0, s)
  end.

(** A float literal: the digits [ip] and [fp] read, the exponent next. *)
Definition float_token (ip fp r : string) (k : string -> res (list token))
    : res (list token) :=
  match exponent r with
  | Some (ex, r4) =>
      if bad_after_number r4 then Unmodelled
      else res_bind (k r4) (fun l => Ok (TNum (float_literal ip fp ex) :: l))
  | None => Unmodelled
  end.

Definition is_exp_mark (c : ascii) : bool := Ascii.eqb c "e"%char || Ascii.eqb c "E"%char.

Fixpoint tokenize_aux (fuel : nat) (s : string) : res (list token) :=
  match fuel with
  | O => Unmodelled
  | S f =>
  match s with
  | EmptyString => Ok []
  | String c t =>
      let cons1 tk := res_bind (tokenize_aux f t) (fun r => Ok (tk :: r)) in
      if Ascii.eqb c " "%char || Ascii.eqb c "009"%char then tokenize_aux f t
      else if is_digit c then
        let '(ip, r1) := span is_digit s in
        match r1 with
        | String d r2 =>
            if Ascii.eqb d "."%char then
              let '(fp, r3) := span is_digit r2 in
              float_token ip fp r3 (tokenize_aux f)
            else if is_exp_mark d then float_token ip EmptyString r1 (tokenize_aux f)
            else if bad_after_number r1 then Unmodelled
            else if Nat.ltb 1 (String.length ip) && Ascii.eqb c "0"%char && negb (all_zeros ip)
            then Unmodelled
            else res_bind (tokenize_aux f r1) (fun r => Ok (TNum (PInt (digits_value ip 0)) :: r))
        | EmptyString =>
            if Nat.ltb 1 (String.length ip) && Ascii.eqb c "0"%char && negb (all_zeros ip)
            then Unmodelled else Ok [TNum (PInt (digits_value ip 0))]
        end
      else if Ascii.eqb c "."%char then
        match t with
        | String d _ =>
            if is_digit d then
              let '(fp, r3) := span is_digit t in
              float_token EmptyString fp r3 (tokenize_aux f)
            else Unmodelled
        | EmptyString => Unmodelled
        end
      else if is_alpha c then
        let '(x, r1) := span is_alnum s in
        match r1 with
        | String d _ =>
            if Ascii.eqb d "'"%char || Ascii.eqb d "034"%char then Unmodelled
            else res_bind (tokenize_aux f r1) (fun r => Ok (TName x :: r))
        | EmptyString => Ok [TName x]
        end
      else if Ascii.eqb c "'"%char || Ascii.eqb c "034"%char then
        let '(body, r1) := span (fun d => negb (Ascii.eqb d c || Ascii.eqb d "\"%char)) t in
        match r1 with
        | String d r2 =>
            if Ascii.eqb d c then res_bind (tokenize_aux f r2) (fun r => Ok (TStr body :: r))
            else Unmodelled
        | EmptyString => Unmodelled
        end
      else if Ascii.eqb c "*"%char then
        match t with
        | String d r2 =>
            if Ascii.eqb d "*"%char then res_bind (tokenize_aux f r2) (fun r => Ok (TOp "**" :: r))
            else cons1 (TOp "*")
        | EmptyString => cons1 (TOp "*")
        end
      else if Ascii.eqb c "/"%char then
        match t with
        | String d _ => if Ascii.eqb d "/"%char then Unmodelled else cons1 (TOp "/")
        | EmptyString => cons1 (TOp "/")
        end
      else if Ascii.eqb c "+"%char then cons1 (TOp "+")
      else if Ascii.eqb c "-"%char then cons1 (TOp "-")
      else if Ascii.eqb c "%"%char then cons1 (TOp "%")
      else if Ascii.eqb c "("%char then cons1 TLPar
      else if Ascii.eqb c ")"%char then cons1 TRPar
      else if Ascii.eqb c ","%char then cons1 TComma
      else Unmodelled
  end
  end.

Definition tokenize (s : string) : res (list token) := tokenize_aux (S (String.length s)) s.

(** *** Syntax *)

Inductive binop := BAdd | BSub | BMul | BDiv | BMod | BPow.

#[local] Set Warnings "-register-all".
Inductive expr :=
  | ENum (v : pyval)
  | EStr (s : string)
  | EName (x : string)
  | EBin (o : binop) (a b : expr)
  | ENeg (a : expr)
  | EPos (a : expr)
  | EOr (a b : expr)
  | ECall (f : expr) (args : list expr).

(** A parse: failure, a construct outside the fragment (tuples, other
    keywords), or a result and the remaining tokens. *)
Inductive parsed (A : Type) :=
  | PFail
  | PUnsup
  | POk (a : A) (rest : list token).
Arguments PFail {A}.
Arguments PUnsup {A}.
Arguments POk {A} a rest.

Definition pbind {A B} (p : parsed A) (k : A -> list token -> parsed B) : parsed B :=
  match p with
  | POk a r => k a r
  | PFail => PFail
  | PUnsup => PUnsup
  end.

Definition keywords : list string :=
  ["False"; "None"; "True"; "and"; "as"; "assert"; "async"; "await"; "break";
   "class"; "continue"; "def"; "del"; "elif"; "else"; "except"; "finally";
   "for"; "from"; "global"; "if"; "import"; "in"; "is"; "lambda"; "nonlocal";
   "not"; "or"; "pass"; "raise"; "return"; "try"; "while"; "with"; "yield"].

Definition is_keyword (x : string) : bool := existsb (String.eqb x) keywords.

Definition is_op (o : string) (t : token) : bool :=
  match t with TOp o' => String.eqb o o' | _ => false end.

(** Recursive descent following Python's grammar:
    [or_test: arith ('or' arith)*], [arith: term (('+'|'-') term)*],
    [term: factor (('*'|'/'|'%') factor)*], [factor: ('+'|'-') factor | power],
    [power: primary ['**' factor]], [primary: atom ('(' [args] ')')*]. *)
Fixpoint p_or (n : nat) (ts : list token) : parsed expr :=
  match n with O => PUnsup | S n' => pbind (p_arith n' ts) (p_or_tail n') end
with p_or_tail (n : nat) (a : expr) (ts : list token) : parsed expr :=
  match n with
  | O => PUnsup
  | S n' =>
      match ts with
      | TName x :: r =>
          if String.eqb x "or" then pbind (p_arith n' r) (fun b => p_or_tail n' (EOr a b))
          else POk a ts
      | _ => POk a ts
      end
  end
with p_arith (n : nat) (ts : list token) : parsed expr :=
  match n with O => PUnsup | S n' => pbind (p_term n' ts) (p_arith_tail n') end
with p_arith_tail (n : nat) (a : expr) (ts : list token) : parsed expr :=
  match n with
  | O => PUnsup
  | S n' =>
      match ts with
      | t :: r =>
          if is_op "+" t then pbind (p_term n' r) (fun b => p_arith_tail n' (EBin BAdd a b))
          else if is_op "-" t then pbind (p_term n' r) (fun b => p_arith_tail n' (EBin BSub a b))
          else POk a ts
      | [] => POk a ts
      end
  end
with p_term (n : nat) (ts : list token) : parsed expr :=
  match n with O => PUnsup | S n' => pbind (p_factor n' ts) (p_term_tail n') end
with p_term_tail (n : nat) (a : expr) (ts : list token) : parsed expr :=
  match n with
  | O => PUnsup
  | S n' =>
      match ts with
      | t :: r =>
          if is_op "*" t then pbind (p_factor n' r) (fun b => p_term_tail n' (EBin BMul a b))
          else if is_op "/" t then pbind (p_factor n' r) (fun b => p_term_tail n' (EBin BDiv a b))
          else if is_op "%" t then pbind (p_factor n' r) (fun b => p_term_tail n' (EBin BMod a b))
          else POk a ts
      | [] => POk a ts
      end
  end
with p_factor (n : nat) (ts : list token) : parsed expr :=
  match n with
  | O => PUnsup
  | S n' =>
      match ts with
      | t :: r =>
          if is_op "+" t then pbind (p_factor n' r) (fun a => POk (EPos a))
          else if is_op "-" t then pbind (p_factor n' r) (fun a => POk (ENeg a))
          else p_power n' ts
      | [] => p_power n' ts
      end
  end
with p_power (n : nat) (ts : list token) : parsed expr :=
  match n with
  | O => PUnsup
  | S n' =>
      pbind (p_primary n' ts) (fun a r =>
        match r with
        | t :: r' => if is_op "**" t then pbind (p_factor n' r') (fun b => POk (EBin BPow a b))
                     else POk a r
        | [] => POk a r
        end)
  end
with p_primary (n : nat) (ts : list token) : parsed expr :=
  match n with O => PUnsup | S n' => pbind (p_atom n' ts) (p_trailers n') end
with p_trailers (n : nat) (a : expr) (ts : list token) : parsed expr :=
  match n with
  | O => PUnsup
  | S n' =>
      match ts with
      | TLPar :: TRPar :: r => p_trailers n' (ECall a []) r
      | TLPar :: r =>
          pbind (p_args n' r) (fun args r' =>
            match r' with
            | TRPar :: r'' => p_trailers n' (ECall a args) r''
            | _ => PFail
            end)
      | _ => POk a ts
      end
  end
with p_args (n : nat) (ts : list token) : parsed (list expr) :=
  match n with
  | O => PUnsup
  | S n' =>
      pbind (p_or n' ts) (fun a r =>
        match r with
        | TComma :: r' => pbind (p_args n' r') (fun l => POk (a :: l))
        | _ => POk [a] r
        end)
  end
with p_atom (n : nat) (ts : list token) : parsed expr :=
  match n with
  | O => PUnsup
  | S n' =>
      match ts with
      | TNum v :: r => POk (ENum v) r
      | TStr s :: r => POk (EStr s) r
      | TName x :: r => if is_keyword x then PUnsup else POk (EName x) r
      | TLPar :: TRPar :: _ => PUnsup
      | TLPar :: r =>
          pbind (p_or n' r) (fun e r' =>
            match r' with
            | TRPar :: r'' => POk e r''
            | TComma :: _ => PUnsup
            | _ => PFail
            end)
      | _ => PFail
      end
  end.

(** Token lists made only of numbers, operators and parentheses: on
    these the grammar above is Python's, so a failed parse is a
    [SyntaxError]. *)
Definition arith_token (t : token) : bool :=
  match t with TNum _ | TOp _ | TLPar | TRPar => true | _ => false end.

Definition parse (ts : list token) : res expr :=
  match p_or (20 * S (length ts)) ts with
  | POk e [] => Ok e
  | PUnsup => Unmodelled
  | _ => if forallb arith_token ts then Raise SyntaxError else Unmodelled
  end.

(** *** Evaluation, with [self] in scope *)

(** [a % b] on numbers: [int % int] by [imod], otherwise on floats
    after converting an [int] operand. *)
Definition modulo (a b : pyval) : res pyval :=
  match a, b with
  | PInt x, PInt y => res_bind (imod x y) (fun r => Ok (PInt r))
  | _, _ =>
      res_bind (to_float a) (fun fa => res_bind (to_float b) (fun fb =>
        res_bind (float_mod fa fb) (fun r => Ok (PFloat r))))
  end.

Definition apply_binop (o : binop) (a b : value) : res value :=
  match a, b with
  | VNum x, VNum y =>
      res_bind (match o with
                | BAdd => add x y
                | BSub => sub x y
                | BMul => mul x y
                | BDiv => truediv x y
                | BMod => modulo x y
                | BPow => pow x y
                end) (fun r => Ok (VNum r))
  | VStr _, _ | _, VStr _ => Unmodelled
  | _, _ => Raise TypeError
  end.

Definition negate (a : value) : res value :=
  match a with
  | VNum (PInt z) => Ok (VNum (PInt (- z)))
  | VNum (PFloat f) => Ok (VNum (PFloat (SFopp f)))
  | _ => Raise TypeError
  end.

Definition positive (a : value) : res value :=
  match a with VNum _ => Ok a | _ => Raise TypeError end.

(** Python truth value. *)
Definition truthy (v : value) : bool :=
  match v with
  | VNum n => negb (eq0 n)
  | VNone => false
  | VStr s => negb (String.eqb s EmptyString)
  | VSelf | VSetattr => true
  end.

(** [setattr(self, name, v)] on the calculator's own attributes. *)
Definition setattr_self (name : string) (v : value) (c : calc) : calc * res value :=
  if String.eqb name "_memoria" then (set_memoria v c, Ok VNone)
  else if String.eqb name "_ultimo_resultado" then (set_ultimo v c, Ok VNone)
  else if String.eqb name "_total_operacoes" then
    match v with VNum (PInt z) => (set_total z c, Ok VNone) | _ => (c, Unmodelled) end
  else if String.eqb name "_max_historico" then
    match v with VNum (PInt z) => (set_max z c, Ok VNone) | _ => (c, Unmodelled) end
  else (c, Unmodelled).

Definition call (f : value) (args : list value) (c : calc) : calc * res value :=
  match f, args with
  | VSetattr, [VSelf; VStr name; v] => setattr_self name v c
  | VSetattr, _ => (c, Unmodelled)
  | _, _ => (c, Raise TypeError)
  end.

(** Evaluation threads the calculator: left operand first, then the
    right one; an exception leaves the state reached so far. *)
Fixpoint ev (e : expr) (c : calc) {struct e} : calc * res value :=
  match e with
  | ENum v => (c, Ok (VNum v))
  | EStr s => (c, Ok (VStr s))
  | EName x =>
      (c, if String.eqb x "self" then Ok VSelf
          else if String.eqb x "setattr" then Ok VSetattr
          else Unmodelled)
  | EBin o a b =>
      let '(c1, ra) := ev a c in
      match ra with
      | Ok va =>
          let '(c2, rb) := ev b c1 in
          match rb with
          | Ok vb => (c2, apply_binop o va vb)
          | Raise x => (c2, Raise x)
          | Unmodelled => (c2, Unmodelled)
          end
      | Raise x => (c1, Raise x)
      | Unmodelled => (c1, Unmodelled)
      end
  | ENeg a => let '(c1, ra) := ev a c in (c1, res_bind ra negate)
  | EPos a => let '(c1, ra) := ev a c in (c1, res_bind ra positive)
  | EOr a b =>
      let '(c1, ra) := ev a c in
      match ra with
      | Ok va => if truthy va then (c1, Ok va) else ev b c1
      | Raise x => (c1, Raise x)
      | Unmodelled => (c1, Unmodelled)
      end
  | ECall f args =>
      let '(c1, rf) := ev f c in
      match rf with
      | Ok vf =>
          let fix ev_args (l : list expr) (c : calc) : calc * res (list value) :=
            match l with
            | [] => (c, Ok [])
            | a :: l' =>
                let '(c', ra) := ev a c in
                match ra with
                | Ok va =>
                    let '(c'', rl) := ev_args l' c' in
                    (c'', res_bind rl (fun vs => Ok (va :: vs)))
                | Raise x => (c', Raise x)
                | Unmodelled => (c', Unmodelled)
                end
            end in
          let '(c2, rargs) := ev_args args c1 in
          match rargs with
          | Ok vs => call vf vs c2
          | Raise x => (c2, Raise x)
          | Unmodelled => (c2, Unmodelled)
          end
      | Raise x => (c1, Raise x)
      | Unmodelled => (c1, Unmodelled)
      end
  end.

(** [eval(s)] inside a method of the calculator. *)
Definition eval (s : string) (c : calc) : calc * res value :=
  match tokenize s with
  | Ok ts =>
      match parse ts with
      | Ok e => ev e c
      | Raise x => (c, Raise x)
      | Unmodelled => (c, Unmodelled)
      end
  | Raise x => (c, Raise x)
  | Unmodelled => (c, Unmodelled)
  end.

End Expr.

(* ================================================================== *)
(** ** The remaining methods and the main loop *)

Module Menu.

Import PyStr Py Session Ops.
Local Open Scope string_scope.

(** Each method returns, as ghost information, how many operations it
    recorded with [_adicionar_ao_historico] and, for
    [calcular_expressao], the text handed to [eval]. *)
Record info := mk_info { gravadas : nat; avaliado : option string }.

Definition nada : info := mk_info 0 None.

Definition gravou (m : M unit) : M info := _ <- m ;; ret (mk_info 1 None).

(** [str(v)]; the [repr] of the calculator object shows its address and
    is not modelled. *)
Definition str_value (v : value) : res string :=
  match v with
  | VNum n => Ok (str_num n)
  | VNone => Ok "None"
  | VStr s => Ok s
  | VSelf => Unmodelled
  | VSetattr => Ok "<built-in function setattr>"
  end.

(** The text [calcular_expressao] evaluates: ['M'] and ['U'] replaced,
    then ['^'] replaced by ['**']. *)
Definition texto_avaliado (c : calc) (e : string) : res string :=
  res_bind (str_value (memoria c)) (fun sm =>
  res_bind (str_value (if is_set (ultimo_resultado c) then ultimo_resultado c else VNum (PInt 0)))
    (fun su =>
       Ok (replace1 "^" "**" (replace1 "U" su (replace1 "M" sm e))))).

(** What [eval(s)] does, seen from [calcular_expressao]: it returns a
    value ([Ok]) or raises an exception the [try] catches ([Raise]), with
    the calculator and the input it leaves; it may also raise what
    [except Exception] does not catch ([Exn], e.g. [SystemExit]).  Python's
    [eval] can do far more than the fragment of [Expr] models, so the
    method is also defined for an arbitrary evaluator. *)
Definition avaliador := string -> M (res value).

(** [eval] on the fragment of [Expr]; a run that leaves the fragment is
    [Unk]. *)
Definition eval_py : avaliador :=
  fun s c inp =>
    match Expr.eval s c with
    | (_, Unmodelled) => Unk
    | (c1, r) => Ret r c1 inp
    end.

(** The [try] block of [calcular_expressao]: every exception raised in it
    is caught ([ZeroDivisionError] and [Exception]); the state is the one
    reached when it was raised.  Printing the result may raise
    [AttributeError] after the entry is recorded; it is caught too. *)
Definition bloco_try_com (avaliar : avaliador) (ts e : string) : M info :=
  fun c inp =>
    match texto_avaliado c e with
    | Ok s3 =>
        match avaliar s3 c inp with
        | Ret (Ok v) c1 inp1 =>
            Ret (mk_info 1 (Some s3))
                (adicionar_ao_historico ts (replace2 "*" "*" "^" s3) v "Expressão" c1) inp1
        | Ret (Raise _) c1 inp1 => Ret (mk_info 0 (Some s3)) c1 inp1
        | Ret Unmodelled _ _ => Unk
        | Exn x c1 => Exn x c1
        | Unk => Unk
        end
    | Raise _ => Ret nada c inp
    | Unmodelled => Unk
    end.

(** [calcular_expressao], for the evaluator [avaliar]. *)
Definition calcular_expressao_com (avaliar : avaliador) (ts : string) : M info :=
  l <- input ;;
  let e := strip l in
  if String.eqb e EmptyString then (_ <- input ;; ret nada)
  else
    r <- bloco_try_com avaliar ts e ;;
    _ <- input ;;
    ret r.

(** [calcular_expressao] *)
Definition calcular_expressao (ts : string) : M info := calcular_expressao_com eval_py ts.

(** [gerenciar_memoria] *)
Definition gerenciar_memoria : M info :=
  c <- get ;;
  _ <- lift (formatar (memoria c)) ;;
  o <- input ;;
  _ <- (if String.eqb o "1" then
          v <- obter_numero ;;
          _ <- modify (set_memoria v) ;;
          _ <- lift (formatar v) ;;
          ret tt
        else if String.eqb o "2" then
          v <- obter_numero ;;
          c' <- get ;;
          m <- lift (num_op add (memoria c') v) ;;
          _ <- modify (set_memoria m) ;;
          _ <- lift (formatar m) ;;
          ret tt
        else if String.eqb o "3" then
          v <- obter_numero ;;
          c' <- get ;;
          m <- lift (num_op sub (memoria c') v) ;;
          _ <- modify (set_memoria m) ;;
          _ <- lift (formatar m) ;;
          ret tt
        else if String.eqb o "4" then
          modify (set_memoria (VNum (PFloat (S754_zero false))))
        else if String.eqb o "5" then
          _ <- lift (formatar (memoria c)) ;; ret tt
        else ret tt) ;;
  _ <- input ;;
  ret nada.

Fixpoint formatar_todos (l : list entrada) : res unit :=
  match l with
  | [] => Ok tt
  | x :: r => res_bind (formatar (resultado x)) (fun _ => formatar_todos r)
  end.

(** [exibir_historico]: the entries, most recent first. *)
Definition exibir_historico : M info :=
  c <- get ;;
  _ <- lift (formatar_todos (rev (historico c))) ;;
  _ <- input ;;
  ret nada.

(** The operations per kind of [exibir_estatisticas]: a dictionary filled
    in history order (insertion order = first occurrence) ... *)
Fixpoint contar (h : list entrada) (tipos : list (string * Z)) : list (string * Z) :=
  match h with
  | [] => tipos
  | op :: r =>
      let t := tipo op in
      let tipos' :=
        if existsb (fun p => String.eqb (fst p) t) tipos
        then map (fun p => if String.eqb (fst p) t then (fst p, snd p + 1) else p) tipos
        else app tipos [(t, 1)] in
      contar r tipos'
  end.

(** ... then [sorted(tipos.items(), key=lambda x: x[1], reverse=True)]:
    a stable sort by decreasing count (equal counts keep their order). *)
Fixpoint inserir_estavel (p : string * Z) (l : list (string * Z)) : list (string * Z) :=
  match l with
  | [] => [p]
  | q :: r => if Z.leb (snd q) (snd p) then p :: q :: r else q :: inserir_estavel p r
  end.

Fixpoint ordenar (l : list (string * Z)) : list (string * Z) :=
  match l with
  | [] => []
  | p :: r => inserir_estavel p (ordenar r)
  end.

Definition contagem_por_tipo (h : list entrada) : list (string * Z) :=
  ordenar (contar h []).

(** [exibir_estatisticas] *)
Definition exibir_estatisticas : M info :=
  c <- get ;;
  _ <- (if is_set (ultimo_resultado c) then lift (formatar (ultimo_resultado c)) else ret EmptyString) ;;
  _ <- lift (formatar (memoria c)) ;;
  let linhas := map (fun p => "  " ++ fst p ++ ": " ++ str_int (snd p) ++ " operações")
                    (contagem_por_tipo (historico c)) in
  _ <- input ;;
  ret nada.

(** [salvar_historico]: the file written is outside the model; every
    error while writing is caught. *)
Definition salvar_historico : M info :=
  c <- get ;;
  match historico c with
  | [] => _ <- input ;; ret nada
  | _ => _ <- input ;; _ <- input ;; ret nada
  end.

(** [limpar_historico] *)
Definition limpar_historico : M info :=
  _ <- modify (set_historico []) ;;
  _ <- input ;;
  ret nada.

(** [resetar_calculadora] *)
Definition resetar_calculadora : M info :=
  _ <- modify (fun c => set_total 0 (set_historico [] (set_ultimo VNone
                          (set_memoria (VNum (PFloat (S754_zero false))) c)))) ;;
  _ <- input ;;
  ret nada.

(** [exibir_menu_principal] *)
Definition exibir_menu_principal : M unit :=
  c <- get ;;
  _ <- lift (formatar (memoria c)) ;;
  if is_set (ultimo_resultado c) then (_ <- lift (formatar (ultimo_resultado c)) ;; ret tt)
  else ret tt.

(** The dispatch of [executar] on the option read (stripped, upper case). *)
Definition despachar (o ts : string) : M info :=
  if String.eqb o "1" then gravou (somar ts)
  else if String.eqb o "2" then gravou (subtrair ts)
  else if String.eqb o "3" then gravou (multiplicar ts)
  else if String.eqb o "4" then gravou (dividir ts)
  else if String.eqb o "5" then gravou (resto_divisao ts)
  else if String.eqb o "6" then gravou (potencia ts)
  else if String.eqb o "7" then gravou (raiz_quadrada ts)
  else if String.eqb o "8" then gravou (porcentagem ts)
  else if String.eqb o "9" then gravou (fatorial ts)
  else if String.eqb o "E" then calcular_expressao ts
  else if String.eqb o "H" then exibir_historico
  else if String.eqb o "M" then gerenciar_memoria
  else if String.eqb o "S" then exibir_estatisticas
  else if String.eqb o "G" then salvar_historico
  else if String.eqb o "C" then limpar_historico
  else if String.eqb o "R" then resetar_calculadora
  else (_ <- input ;; ret nada).

(** One iteration of [executar]: the menu, the option, its method;
    [None] when the option is ["0"] (leave the loop). *)
Definition iteracao (ts : string) : M (option (string * info)) :=
  _ <- exibir_menu_principal ;;
  l <- input ;;
  let o := upper (strip l) in
  if String.eqb o "0" then ret None
  else i <- despachar o ts ;; ret (Some (o, i)).

(** The [while True] loop of [executar]; [relogio k] is the time stamp
    of the [k]-th iteration.  Every iteration reads at least one line, so
    [S (length inp)] iterations are enough. *)
Fixpoint executar_aux (fuel : nat) (relogio : nat -> string) (k : nat)
    (log : list (string * info)) : M (list (string * info)) :=
  match fuel with
  | O => fun _ _ => Unk
  | S f =>
      r <- iteracao (relogio k) ;;
      match r with
      | None => ret (rev log)
      | Some x => executar_aux f relogio (S k) (x :: log)
      end
  end.

(** [Calculadora.executar]: the options run and what each recorded. *)
Definition executar (relogio : nat -> string) : M (list (string * info)) :=
  fun c inp => executar_aux (S (length inp)) relogio 0 [] c inp.

End Menu.

(* ================================================================== *)
(** ** Auxiliary notions used in the statements *)

Module Espec.

Import PyStr Py Session Expr Menu.
Local Open Scope string_scope.

(** The last [n] elements of a list, in their order. *)
Definition ultimas {A} (n : nat) (l : list A) : list A := skipn (length l - n) l.

(** Appending one entry with [_adicionar_ao_historico]. *)
Definition acrescentar (c : calc) (e : entrada) : calc :=
  adicionar_ao_historico (timestamp e) (expressao e) (resultado e) (tipo e) c.

(** What a step ends in. *)
Definition estado_final {A} (s : step A) : option calc :=
  match s with Ret _ c _ | Exn _ c => Some c | Unk => None end.

Definition valor_final {A} (s : step A) : option A :=
  match s with Ret a _ _ => Some a | _ => None end.

(** Each character replaced at once: ['M'] by [sm], ['U'] by [su], ['^']
    by ["**"]; the others kept. *)
Fixpoint substituir (sm su s : string) : string :=
  match s with
  | EmptyString => EmptyString
  | String ch t =>
      (if Ascii.eqb ch "M"%char then sm
       else if Ascii.eqb ch "U"%char then su
       else if Ascii.eqb ch "^"%char then "**"
       else String ch EmptyString) ++ substituir sm su t
  end.

(** The number [U] stands for: the last result, [0] while there is none. *)
Definition ultimo_ou_zero (c : calc) : pyval :=
  match ultimo_resultado c with VNum u => u | _ => PInt 0 end.

(** Every character of [s] satisfies [p]. *)
Definition todos (p : ascii -> bool) (s : string) : bool :=
  forallb p (list_ascii_of_string s).



(** The distinct kinds of a list, in order of first occurrence. *)
Fixpoint primeiras (l : list string) : list string :=
  match l with
  | [] => []
  | x :: r => x :: filter (fun y => negb (String.eqb y x)) (primeiras r)
  end.

Fixpoint ocorrencias (t : string) (l : list string) : Z :=
  match l with
  | [] => 0
  | x :: r => (if String.eqb x t then 1 else 0) + ocorrencias t r
  end.

(** Each kind with the number of its occurrences, in order of first
    occurrence. *)
Definition tabela (l : list string) : list (string * Z) :=
  map (fun t => (t, ocorrencias t l)) (primeiras l).

End Espec.

(* ================================================================== *)
(** ** Lemmas on the methods *)

Module Lemas.

Import PyStr Py Session Ops Expr Menu Espec.
Local Open Scope string_scope.

(** *** Inverting a successful step *)

Lemma bind_Ret {A B} (m : M A) (k : A -> M B) c inp b c' inp' :
  bind m k c inp = Ret b c' inp' ->
  exists a c1 inp1, m c inp = Ret a c1 inp1 /\ k a c1 inp1 = Ret b c' inp'.
Proof.
  unfold bind. destruct (m c inp) as [a c1 inp1| |]; intros H; [eauto | discriminate | discriminate].
Qed.

Lemma ret_Ret {A} (a : A) c inp b c' inp' :
  ret a c inp = Ret b c' inp' -> b = a /\ c' = c /\ inp' = inp.
Proof. unfold ret; intros H; injection H; auto. Qed.

Lemma get_Ret c inp a c' inp' : get c inp = Ret a c' inp' -> a = c /\ c' = c.
Proof. unfold get; intros H; injection H; auto. Qed.

Lemma modify_Ret f c inp a c' inp' : modify f c inp = Ret a c' inp' -> c' = f c.
Proof. unfold modify; intros H; injection H; auto. Qed.

Lemma input_Ret c inp a c' inp' : input c inp = Ret a c' inp' -> c' = c /\ inp = a :: inp'.
Proof.
  unfold input; destruct inp as [|l r]; intros H; [discriminate|]. injection H; intros; subst; auto.
Qed.

Lemma lift_Ret {A} (r : res A) c inp a c' inp' :
  lift r c inp = Ret a c' inp' -> r = Ok a /\ c' = c /\ inp' = inp.
Proof. unfold lift; destruct r; intros H; try discriminate; injection H; intros; subst; auto. Qed.

Lemma ler_valido_Ret {A} (valida : value -> res (option A)) c inp a c' inp' :
  ler_valido valida c inp = Ret a c' inp' -> c' = c.
Proof.
  unfold ler_valido. induction inp as [|l r IH]; simpl; [discriminate|].
  destruct (numero_da_linha c l) as [v|]; [|exact IH].
  destruct (valida v) as [[a'|]| |]; [| exact IH | discriminate | discriminate].
  intros H; injection H; auto.
Qed.

Lemma ler_valido_Ok {A} (valida : value -> res (option A)) c inp a c' inp' :
  ler_valido valida c inp = Ret a c' inp' -> c' = c /\ exists v, valida v = Ok (Some a).
Proof.
  unfold ler_valido. induction inp as [|l r IH]; simpl; [discriminate|].
  destruct (numero_da_linha c l) as [v|]; [|exact IH].
  destruct (valida v) as [[a'|]| |] eqn:E; [| exact IH | discriminate | discriminate].
  intros H; injection H; intros; subst; eauto.
Qed.

Ltac inv_passos :=
  repeat match goal with
  | H : bind _ _ _ _ = Ret _ _ _ |- _ =>
      apply bind_Ret in H;
      let a := fresh "a" in let c := fresh "c" in let i := fresh "inp" in
      let H' := fresh "H" in
      destruct H as (a & c & i & H' & H); cbv beta zeta in H
  | H : ret _ _ _ = Ret _ _ _ |- _ => apply ret_Ret in H; destruct H as (? & ? & ?); subst
  | H : get _ _ = Ret _ _ _ |- _ => apply get_Ret in H; destruct H; subst
  | H : modify _ _ _ = Ret _ _ _ |- _ => apply modify_Ret in H; subst
  | H : input _ _ = Ret _ _ _ |- _ => apply input_Ret in H; destruct H; subst
  | H : lift _ _ _ = Ret _ _ _ |- _ => apply lift_Ret in H; destruct H as (? & ? & ?); subst
  | H : ler_valido _ _ _ = Ret _ _ _ |- _ =>
      apply ler_valido_Ok in H; destruct H as (? & ? & ?); subst
  | H : obter_numero _ _ = Ret _ _ _ |- _ => apply ler_valido_Ret in H; subst
  end.

Lemma formatar_Ok v s : formatar v = Ok s -> exists x, v = VNum x /\ s = formatar_numero x.
Proof. destruct v; simpl; intros H; try discriminate. injection H; intros; subst; eauto. Qed.

Lemma num_op_Ok op a b r :
  num_op op a b = Ok r -> exists x y z, a = VNum x /\ b = VNum y /\ op x y = Ok z /\ r = VNum z.
Proof.
  destruct a, b; simpl; intros H; try discriminate.
  unfold res_map, res_bind in H. destruct (op n n0) eqn:E; try discriminate.
  injection H; intros; subst; eauto 7.
Qed.

Ltac ok_passos :=
  repeat match goal with
  | H : num_op _ _ _ = Ok _ |- _ =>
      apply num_op_Ok in H;
      let x := fresh "x" in let y := fresh "y" in let z := fresh "z" in
      destruct H as (x & y & z & ? & ? & ? & ?); subst
  | H : formatar (VNum _) = Ok _ |- _ => simpl in H; injection H; clear H; intros; subst
  end.

(** *** What each method does to the calculator when it returns *)

Lemma binaria_Ret op s tp ts c inp u c' inp' :
  binaria op s tp ts c inp = Ret u c' inp' ->
  exists x y r, op x y = Ok r /\
    c' = adicionar_ao_historico ts (formatar_numero x ++ s ++ formatar_numero y) (VNum r) tp c.
Proof.
  unfold binaria, concluir; intros H; inv_passos; ok_passos. eauto.
Qed.

Lemma dividir_Ret ts c inp u c' inp' :
  dividir ts c inp = Ret u c' inp' ->
  exists x y r, eq0 y = false /\ truediv x y = Ok r /\
    c' = adicionar_ao_historico ts (formatar_numero x ++ " ÷ " ++ formatar_numero y) (VNum r) "Divisão" c.
Proof.
  unfold dividir, concluir; intros H; inv_passos.
  match goal with
  | Hv : (Ok (if is_zero_value ?v then None else Some ?v)) = Ok (Some _) |- _ =>
      destruct (is_zero_value v) eqn:Ez; [discriminate|]; injection Hv; intros; subst
  end.
  ok_passos. simpl in Ez. eauto 10.
Qed.

Lemma resto_divisao_Ret ts c inp u c' inp' :
  resto_divisao ts c inp = Ret u c' inp' ->
  exists a b, b <> 0 /\
    c' = adicionar_ao_historico ts (str_int a ++ " % " ++ str_int b) (VNum (PInt (a mod b))) "Resto Divisão" c.
Proof.
  unfold resto_divisao; intros H; inv_passos.
  match goal with
  | Hv : res_map _ (int_of_value ?v) = Ok (Some _) |- _ =>
      unfold res_map, res_bind in Hv; destruct (int_of_value v) as [b0| |]; try discriminate;
      destruct (Z.eqb_spec b0 0); [discriminate|]; injection Hv; intros; subst
  end.
  match goal with
  | Hm : imod _ _ = Ok _ |- _ =>
      unfold imod in Hm; destruct (Z.eqb_spec a1 0); [contradiction|]; injection Hm; intros; subst
  end.
  eauto.
Qed.

Lemma fatorial_Ret ts c inp u c' inp' :
  fatorial ts c inp = Ret u c' inp' ->
  exists n, 0 <= n <= 20 /\
    c' = adicionar_ao_historico ts (str_int n ++ "!") (VNum (PInt (factorial n))) "Fatorial" c.
Proof.
  unfold fatorial; intros H; inv_passos.
  match goal with
  | Hv : res_map _ (int_of_value ?v) = Ok (Some _) |- _ =>
      unfold res_map, res_bind in Hv; destruct (int_of_value v) as [n0| |]; try discriminate;
      destruct (Z.ltb_spec n0 0); [discriminate|];
      destruct (Z.ltb_spec 20 n0); [discriminate|]; injection Hv; intros; subst
  end.
  exists a; split; [lia | reflexivity].
Qed.

Lemma raiz_quadrada_Ret ts c inp u c' inp' :
  raiz_quadrada ts c inp = Ret u c' inp' ->
  exists e r, c' = adicionar_ao_historico ts e r "Raiz Quadrada" c.
Proof. unfold raiz_quadrada, concluir; intros H; inv_passos. eauto. Qed.

Lemma porcentagem_Ret ts c inp u c' inp' :
  porcentagem ts c inp = Ret u c' inp' ->
  exists e r, c' = adicionar_ao_historico ts e r "Porcentagem" c.
Proof. unfold porcentagem, concluir; intros H; inv_passos. eauto. Qed.

(** *** The other methods of the menu *)

Ltac passos :=
  repeat progress (inv_passos; try match goal with
    | H : (if ?b then _ else _) _ _ = Ret _ _ _ |- _ => destruct b; cbn beta iota in H
    | H : (match ?x with _ => _ end) _ _ = Ret _ _ _ |- _ => destruct x; cbn beta iota in H
    end).


Lemma exibir_historico_Ret c inp i c' inp' :
  exibir_historico c inp = Ret i c' inp' -> i = nada /\ c' = c.
Proof. unfold exibir_historico; intros H; passos; auto. Qed.

Lemma exibir_estatisticas_Ret c inp i c' inp' :
  exibir_estatisticas c inp = Ret i c' inp' -> i = nada /\ c' = c.
Proof. unfold exibir_estatisticas; intros H; passos; auto. Qed.

Lemma salvar_historico_Ret c inp i c' inp' :
  salvar_historico c inp = Ret i c' inp' -> i = nada /\ c' = c.
Proof. unfold salvar_historico; intros H; passos; auto. Qed.

Lemma limpar_historico_Ret c inp i c' inp' :
  limpar_historico c inp = Ret i c' inp' -> i = nada /\ c' = set_historico [] c.
Proof. unfold limpar_historico; intros H; passos; auto. Qed.

Lemma resetar_calculadora_Ret c inp i c' inp' :
  resetar_calculadora c inp = Ret i c' inp' ->
  i = nada /\ c' = set_total 0 (set_historico [] (set_ultimo VNone
                      (set_memoria (VNum (PFloat (S754_zero false))) c))).
Proof. unfold resetar_calculadora; intros H; passos; auto. Qed.

Lemma exibir_menu_principal_Ret c inp u c' inp' :
  exibir_menu_principal c inp = Ret u c' inp' -> c' = c.
Proof. unfold exibir_menu_principal; intros H; passos; auto. Qed.

(** *** Appending to the history *)

Lemma limitar_len k h e :
  (length h <= Z.to_nat k)%nat -> (length (limitar k (h ++ [e])) <= Z.to_nat k)%nat.
Proof.
  unfold limitar; rewrite length_app; simpl; intros Hh.
  destruct (Z.ltb_spec k (Z.of_nat (length h + 1))).
  - destruct h as [|a h]; simpl in *; [lia|]. rewrite length_app; simpl; lia.
  - rewrite length_app; simpl; lia.
Qed.


Lemma ultimas_ultimas {A} n (l r : list A) : ultimas n (app (ultimas n l) r) = ultimas n (app l r).
Proof.
  unfold ultimas. rewrite !length_app, length_skipn.
  replace (app l r) with (app (firstn (length l - n) l) (app (skipn (length l - n) l) r))
    by (rewrite app_assoc, firstn_skipn; reflexivity).
  rewrite (skipn_app _ (firstn (length l - n) l)).
  rewrite (@skipn_all2 _ _ (firstn (length l - n) l)) by (rewrite ?length_firstn; lia). simpl.
  rewrite ?length_firstn. f_equal. lia.
Qed.

Lemma limitar_ultimas k h e :
  (length h <= Z.to_nat k)%nat -> limitar k (app h [e]) = ultimas (Z.to_nat k) (app h [e]).
Proof.
  unfold limitar, ultimas; rewrite length_app; simpl; intros Hh.
  destruct (Z.ltb_spec k (Z.of_nat (length h + 1))).
  - replace (length h + 1 - Z.to_nat k)%nat with 1%nat by lia.
    destruct (app h [e]); reflexivity.
  - replace (length h + 1 - Z.to_nat k)%nat with 0%nat by lia. reflexivity.
Qed.

Lemma acrescentar_varios es : forall c,
  (length (historico c) <= Z.to_nat (max_historico c))%nat ->
  historico (fold_left acrescentar es c) = ultimas (Z.to_nat (max_historico c)) (app (historico c) es) /\
  max_historico (fold_left acrescentar es c) = max_historico c.
Proof.
  induction es as [|e es IH]; intros c Hc; simpl.
  - split; [|reflexivity]. unfold ultimas. rewrite app_nil_r.
    replace (length (historico c) - Z.to_nat (max_historico c))%nat with 0%nat by lia. reflexivity.
  - destruct e as [t x r tp].
    destruct (IH (acrescentar c (mk_entrada t x r tp))) as [Hh Hm].
    { unfold acrescentar, adicionar_ao_historico; simpl. apply limitar_len; exact Hc. }
    rewrite Hh, Hm. unfold acrescentar, adicionar_ao_historico; simpl.
    split; [|reflexivity].
    rewrite limitar_ultimas by exact Hc. rewrite ultimas_ultimas, <- app_assoc. reflexivity.
Qed.

(** *** The dictionary of [exibir_estatisticas] *)

Lemma existsb_filtrado t x l : x <> t ->
  existsb (fun y => String.eqb y t) (filter (fun y => negb (String.eqb y x)) l)
  = existsb (fun y => String.eqb y t) l.
Proof.
  intros Hx. induction l as [|y l IH]; simpl; [reflexivity|].
  destruct (String.eqb_spec y x) as [->|Hy]; simpl.
  - apply String.eqb_neq in Hx. rewrite Hx, IH. reflexivity.
  - rewrite IH. reflexivity.
Qed.

Lemma filtrar_app f (l1 l2 : list string) : filter f (app l1 l2) = app (filter f l1) (filter f l2).
Proof. induction l1 as [|y l1 IH]; simpl; [reflexivity|]. destruct (f y); rewrite IH; reflexivity. Qed.

Lemma primeiras_snoc p t :
  primeiras (app p [t])
  = if existsb (fun y => String.eqb y t) (primeiras p) then primeiras p else app (primeiras p) [t].
Proof.
  induction p as [|x r IH]; [reflexivity|].
  cbn [app primeiras existsb]. rewrite IH.
  destruct (String.eqb_spec x t) as [->|Hx]; cbn [orb].
  - destruct (existsb _ (primeiras r)); [reflexivity|].
    rewrite filtrar_app. cbn. rewrite String.eqb_refl, app_nil_r. reflexivity.
  - rewrite existsb_filtrado by exact Hx.
    destruct (existsb _ (primeiras r)); [reflexivity|].
    rewrite filtrar_app. cbn.
    assert (Ht : String.eqb t x = false) by (apply String.eqb_neq; congruence).
    rewrite Ht. reflexivity.
Qed.

Lemma existsb_primeiras t p :
  existsb (fun y => String.eqb y t) (primeiras p) = existsb (fun y => String.eqb y t) p.
Proof.
  induction p as [|x r IH]; [reflexivity|]. cbn [primeiras existsb].
  destruct (String.eqb_spec x t) as [->|Hx]; [reflexivity|].
  rewrite existsb_filtrado by exact Hx. exact IH.
Qed.

Lemma ocorrencias_snoc x p t :
  ocorrencias x (app p [t]) = ocorrencias x p + (if String.eqb t x then 1 else 0).
Proof. induction p as [|y r IH]; simpl; [destruct (String.eqb t x); lia | rewrite IH; lia]. Qed.

Lemma ocorrencias_zero t p : existsb (fun y => String.eqb y t) p = false -> ocorrencias t p = 0.
Proof.
  induction p as [|y r IH]; simpl; [reflexivity|].
  intros H. apply orb_false_iff in H as [H1 H2]. rewrite H1, IH by exact H2. reflexivity.
Qed.

Lemma existsb_tabela t l :
  existsb (fun p => String.eqb (fst p) t) (tabela l)
  = existsb (fun y => String.eqb y t) (primeiras l).
Proof.
  unfold tabela. induction (primeiras l) as [|x r IH]; simpl; [reflexivity|]. rewrite IH. reflexivity.
Qed.

(** One entry counted in the dictionary. *)
Lemma contar_passo p t :
  (if existsb (fun q => String.eqb (fst q) t) (tabela p)
   then map (fun q => if String.eqb (fst q) t then (fst q, snd q + 1) else q) (tabela p)
   else app (tabela p) [(t, 1)])
  = tabela (app p [t]).
Proof.
  rewrite existsb_tabela. unfold tabela at 3. rewrite primeiras_snoc.
  destruct (existsb _ (primeiras p)) eqn:E.
  - unfold tabela. rewrite map_map. apply map_ext. intros x. cbn [fst snd].
    rewrite ocorrencias_snoc, (String.eqb_sym t x).
    destruct (String.eqb x t); f_equal; lia.
  - rewrite map_app. unfold tabela. cbn [map]. f_equal.
    + apply map_ext_in. intros x Hx. rewrite ocorrencias_snoc.
      destruct (String.eqb_spec t x) as [->|_]; [|f_equal; lia].
      exfalso. assert (Ht : existsb (fun y => String.eqb y x) (primeiras p) = true)
        by (apply existsb_exists; exists x; split; [exact Hx | apply String.eqb_refl]).
      congruence.
    + rewrite ocorrencias_snoc, String.eqb_refl, ocorrencias_zero; [reflexivity|].
      rewrite <- existsb_primeiras. exact E.
Qed.

Lemma contar_tabela h : forall p, contar h (tabela p) = tabela (app p (map tipo h)).
Proof.
  induction h as [|op r IH]; intros p; cbn [contar map].
  - rewrite app_nil_r. reflexivity.
  - rewrite contar_passo, IH, <- app_assoc. reflexivity.
Qed.

(** *** The sort of [exibir_estatisticas] *)

Definition decrescente (a b : string * Z) : Prop := snd b <= snd a.

Lemma inserir_permutacao p l : Permutation (inserir_estavel p l) (p :: l).
Proof.
  induction l as [|q r IH]; simpl; [reflexivity|].
  destruct (Z.leb (snd q) (snd p)); [reflexivity|].
  rewrite IH. apply perm_swap.
Qed.

Lemma ordenar_permutacao l : Permutation (ordenar l) l.
Proof.
  induction l as [|p r IH]; simpl; [reflexivity|].
  rewrite inserir_permutacao, IH. reflexivity.
Qed.

Lemma inserir_cabeca q p l :
  HdRel decrescente q l -> decrescente q p -> HdRel decrescente q (inserir_estavel p l).
Proof.
  intros H Hp. destruct l as [|q' r]; simpl; [constructor; exact Hp|].
  destruct (Z.leb (snd q') (snd p)); constructor; [exact Hp|].
  apply HdRel_inv in H. exact H.
Qed.

Lemma inserir_ordenada p l : Sorted decrescente l -> Sorted decrescente (inserir_estavel p l).
Proof.
  induction l as [|q r IH]; intros H; simpl; [repeat constructor|].
  destruct (Z.leb_spec (snd q) (snd p)) as [Hle|Hgt].
  - constructor; [exact H | constructor; exact Hle].
  - apply Sorted_inv in H as [Hr Hq]. constructor; [apply IH, Hr|].
    apply inserir_cabeca; [exact Hq | unfold decrescente; lia].
Qed.

Lemma ordenar_ordenada l : Sorted decrescente (ordenar l).
Proof. induction l as [|p r IH]; simpl; [constructor | apply inserir_ordenada, IH]. Qed.

Lemma inserir_estavel_filtro k p l :
  filter (fun q => Z.eqb (snd q) k) (inserir_estavel p l) = filter (fun q => Z.eqb (snd q) k) (p :: l).
Proof.
  induction l as [|q r IH]; simpl; [reflexivity|].
  destruct (Z.leb_spec (snd q) (snd p)) as [Hle|Hgt]; [reflexivity|].
  cbn [filter]. rewrite IH. cbn [filter].
  destruct (Z.eqb_spec (snd q) k) as [Hq|Hq]; destruct (Z.eqb_spec (snd p) k) as [Hp|Hp];
    try reflexivity; lia.
Qed.

Lemma ordenar_filtro k l :
  filter (fun q => Z.eqb (snd q) k) (ordenar l) = filter (fun q => Z.eqb (snd q) k) l.
Proof.
  induction l as [|p r IH]; simpl; [reflexivity|].
  rewrite inserir_estavel_filtro. cbn [filter]. rewrite IH. reflexivity.
Qed.

End Lemas.

(* ------------------------------------------------------------------ *)
(** *** The characters of [str()] of a number *)

Module Caracteres.

Import PyStr Py Espec.
Local Open Scope string_scope.

(** Neither ['U'] nor ['^']. *)
Definition nem_U_nem_circ (ch : ascii) : bool :=
  negb (Ascii.eqb ch "U"%char) && negb (Ascii.eqb ch "^"%char).

Lemma todos_app p s1 s2 : todos p (s1 ++ s2) = todos p s1 && todos p s2.
Proof.
  unfold todos. induction s1 as [|a s1 IH]; simpl; [reflexivity|].
  rewrite IH, andb_assoc. reflexivity.
Qed.

Lemma todos_String p a s : todos p (String a s) = p a && todos p s.
Proof. reflexivity. Qed.

Lemma digit_char_ok d : 0 <= d < 10 -> nem_U_nem_circ (digit_char d) = true.
Proof.
  intros H. unfold digit_char. assert (Hn : (Z.to_nat d < 10)%nat) by lia.
  destruct (Z.to_nat d) as [|[|[|[|[|[|[|[|[|[|n]]]]]]]]]]; try reflexivity; lia.
Qed.

Lemma digit_char_mod_ok n : nem_U_nem_circ (digit_char (n mod 10)) = true.
Proof. apply digit_char_ok. apply Z.mod_pos_bound. lia. Qed.

Lemma digits_aux_ok fuel : forall n acc,
  todos nem_U_nem_circ acc = true -> todos nem_U_nem_circ (digits_aux fuel n acc) = true.
Proof.
  induction fuel as [|f IH]; intros n acc Hacc; simpl; [exact Hacc|].
  assert (Hc : todos nem_U_nem_circ (String (digit_char (n mod 10)) acc) = true)
    by (rewrite todos_String, digit_char_mod_ok; exact Hacc).
  destruct (Z.ltb n 10); [exact Hc | apply IH; exact Hc].
Qed.

Lemma digits_ok n : todos nem_U_nem_circ (digits n) = true.
Proof. apply digits_aux_ok. reflexivity. Qed.

Lemma str_int_ok z : todos nem_U_nem_circ (str_int z) = true.
Proof.
  unfold str_int. destruct (Z.ltb z 0); [|apply digits_ok].
  rewrite todos_app, digits_ok. reflexivity.
Qed.

Lemma zpad_ok w : forall n, todos nem_U_nem_circ (zpad w n) = true.
Proof.
  induction w as [|w IH]; intros n; simpl; [reflexivity|].
  rewrite todos_app, IH, todos_String, digit_char_mod_ok. reflexivity.
Qed.

Lemma repeat_zero_ok n : todos nem_U_nem_circ (repeat_char n "0") = true.
Proof. induction n as [|n IH]; simpl; [reflexivity|]. rewrite todos_String, IH. reflexivity. Qed.

Lemma substring_ok s : forall n m, todos nem_U_nem_circ s = true ->
  todos nem_U_nem_circ (substring n m s) = true.
Proof.
  induction s as [|a s IH]; intros n m Hs; destruct n, m; simpl; try reflexivity.
  - rewrite todos_String in Hs |- *. apply andb_prop in Hs as [Ha Hs]. rewrite Ha. simpl. apply IH; exact Hs.
  - rewrite todos_String in Hs. apply andb_prop in Hs as [_ Hs]. apply IH; exact Hs.
  - rewrite todos_String in Hs. apply andb_prop in Hs as [_ Hs]. apply IH; exact Hs.
Qed.

Lemma exp_str_ok x : todos nem_U_nem_circ (FloatStr.exp_str x) = true.
Proof.
  unfold FloatStr.exp_str. rewrite todos_app, zpad_ok.
  destruct (Z.ltb x 0); reflexivity.
Qed.

Lemma layout_ok ds decpt : todos nem_U_nem_circ ds = true ->
  todos nem_U_nem_circ (FloatStr.layout ds decpt) = true.
Proof.
  intros Hds. unfold FloatStr.layout.
  destruct (Z.leb decpt (-4) || Z.ltb 16 decpt).
  - destruct ds as [|d rest]; [reflexivity|].
    rewrite todos_String in Hds. apply andb_prop in Hds as [Hd Hr].
    rewrite todos_app, todos_String, Hd, !todos_app, exp_str_ok.
    destruct (Z.eqb _ 1); [reflexivity|]. rewrite todos_app, Hr. reflexivity.
  - destruct (Z.leb decpt 0).
    + rewrite !todos_app, repeat_zero_ok, Hds. reflexivity.
    + destruct (Z.ltb decpt _).
      * rewrite !todos_app, !substring_ok by exact Hds. reflexivity.
      * rewrite !todos_app, repeat_zero_ok, Hds. reflexivity.
Qed.

Lemma repr_ok x : todos nem_U_nem_circ (FloatStr.repr x) = true.
Proof.
  destruct x as [s|s| |s m e]; unfold FloatStr.repr;
    [destruct s; reflexivity | destruct s; reflexivity | reflexivity |].
  destruct (Z.leb 0 e); cbv beta iota zeta;
  match goal with
  | |- context [FloatStr.shortest ?f ?x ?p ?q ?n] =>
      destruct (FloatStr.shortest f x p q n) as [D0 k0]
  end; cbv beta iota zeta;
  destruct (FloatStr.drop_zeros 17 D0 k0) as [D k]; cbv beta iota zeta;
  rewrite todos_app, layout_ok by apply digits_ok; destruct s; reflexivity.
Qed.

Lemma str_num_ok v : todos nem_U_nem_circ (str_num v) = true.
Proof. destruct v; simpl; [apply str_int_ok | apply repr_ok]. Qed.

(** *** No decimal point in [str] of an [int] *)





(** *** Rounding to the nearest in [fixed10] *)


(** *** [str.replace] and the simultaneous substitution *)

Lemma append_assoc_str s1 s2 s3 : (s1 ++ s2) ++ s3 = s1 ++ (s2 ++ s3).
Proof. induction s1 as [|a s1 IH]; simpl; congruence. Qed.

Lemma replace1_app c r s1 s2 : replace1 c r (s1 ++ s2) = replace1 c r s1 ++ replace1 c r s2.
Proof.
  induction s1 as [|a s1 IH]; simpl; [reflexivity|].
  destruct (Ascii.eqb a c); rewrite IH; [symmetry; apply append_assoc_str | reflexivity].
Qed.

Lemma replace1_fixo p c r s :
  (forall ch, p ch = true -> Ascii.eqb ch c = false) -> todos p s = true -> replace1 c r s = s.
Proof.
  intros Hp. induction s as [|a s IH]; intros Hs; simpl; [reflexivity|].
  rewrite todos_String in Hs. apply andb_prop in Hs as [Ha Hs].
  rewrite (Hp a Ha), IH by exact Hs. reflexivity.
Qed.

Lemma sem_U ch : nem_U_nem_circ ch = true -> Ascii.eqb ch "U"%char = false.
Proof. unfold nem_U_nem_circ. intros H. apply andb_prop in H as [H _]. now apply negb_true_iff. Qed.

Lemma sem_circ ch : nem_U_nem_circ ch = true -> Ascii.eqb ch "^"%char = false.
Proof. unfold nem_U_nem_circ. intros H. apply andb_prop in H as [_ H]. now apply negb_true_iff. Qed.

Lemma replace_substituir sm su e :
  todos nem_U_nem_circ sm = true -> todos nem_U_nem_circ su = true ->
  replace1 "^" "**" (replace1 "U" su (replace1 "M" sm e)) = substituir sm su e.
Proof.
  intros Hm Hu. induction e as [|ch t IH]; [reflexivity|].
  cbn [replace1 substituir].
  destruct (Ascii.eqb_spec ch "M") as [->|nM].
  - rewrite !replace1_app, (replace1_fixo _ _ _ sm sem_U Hm), (replace1_fixo _ _ _ sm sem_circ Hm), IH.
    reflexivity.
  - cbn [replace1]. destruct (Ascii.eqb_spec ch "U") as [->|nU].
    + rewrite replace1_app, (replace1_fixo _ _ _ su sem_circ Hu), IH. reflexivity.
    + cbn [replace1]. destruct (Ascii.eqb_spec ch "^") as [->|nC].
      * rewrite IH. reflexivity.
      * rewrite IH. reflexivity.
Qed.

End Caracteres.

(* ================================================================== *)
(** ** Properties of the calculator *)

Module Teoremas.

Import PyStr Py Session Ops Expr Menu Espec Lemas Caracteres.
Local Open Scope string_scope.

(** *** The history bound *)

(** C1, the bound broken: [calcular_expressao] hands the typed text to
    [eval] with the calculator [self] in scope, so an expression can
    rebind [_max_historico]; after ["setattr(self,'_max_historico',60) or 1"]
    and 51 sums, the history holds 52 entries. *)
Lemma historico_excede_50 :
  option_map (fun c => length (historico c))
    (estado_final (executar (fun _ => "19/10/2026 10:00:00") inicial
       (app ["E"; "setattr(self,'_max_historico',60) or 1"; ""]
            (app (concat (repeat ["1"; "1"; "1"; ""] 51)) ["0"])))) = Some 52%nat.
Proof. vm_compute. reflexivity. Qed.

(** *** The operation counter *)

(** C2, the counter broken: one recorded expression, after which the
    counter reads 42 instead of 1, because the text given to [eval]
    rebinds [_total_operacoes]. *)
Lemma total_operacoes_reescrito :
  let r := executar (fun _ => "19/10/2026 10:00:00") inicial
             ["E"; "setattr(self,'_total_operacoes',41) or 1"; ""; "0"] in
  valor_final r = Some [("E", mk_info 1 (Some "setattr(self,'_total_operacoes',41) or 1"))] /\
  option_map total_operacoes (estado_final r) = Some 42.
Proof. vm_compute. split; reflexivity. Qed.

(** *** What one operation records *)

(** C3, the postcondition broken: an expression that completes appends
    one entry, but the text given to [eval] moves the counter from 0 to
    42 instead of 1. *)
Lemma expressao_soma_42 :
  let r := calcular_expressao "t" inicial ["setattr(self,'_total_operacoes',41) or 1"; ""] in
  valor_final r = Some (mk_info 1 (Some "setattr(self,'_total_operacoes',41) or 1")) /\
  option_map (fun c => (length (historico c), total_operacoes c)) (estado_final r) = Some (1%nat, 42).
Proof. vm_compute. split; reflexivity. Qed.

(** *** A zero divisor *)

(** C4 (amended).  A zero divisor is not an error outcome.  In [dividir]
    and [resto_divisao], a line read as a divisor equal to zero (after
    [int()] for the remainder) is rejected: the method behaves exactly as
    if that line had not been typed, and asks for the divisor again.
    Nothing is recorded for it.  Whatever these methods record, they
    record with a nonzero divisor. *)
Theorem divisor_zero_repetido :
  (forall ts c la lz rest va vz,
     numero_da_linha c la = Some va -> numero_da_linha c lz = Some vz -> is_zero_value vz = true ->
     dividir ts c (la :: lz :: rest) = dividir ts c (la :: rest)) /\
  (forall ts c la lz rest va a vz,
     numero_da_linha c la = Some va -> int_of_value va = Ok a ->
     numero_da_linha c lz = Some vz -> int_of_value vz = Ok 0 ->
     resto_divisao ts c (la :: lz :: rest) = resto_divisao ts c (la :: rest)) /\
  (forall ts c inp u c' inp', dividir ts c inp = Ret u c' inp' ->
     exists x y r, eq0 y = false /\ truediv x y = Ok r /\
       c' = adicionar_ao_historico ts (formatar_numero x ++ " ÷ " ++ formatar_numero y) (VNum r) "Divisão" c) /\
  (forall ts c inp u c' inp', resto_divisao ts c inp = Ret u c' inp' ->
     exists a b, b <> 0 /\
       c' = adicionar_ao_historico ts (str_int a ++ " % " ++ str_int b) (VNum (PInt (a mod b))) "Resto Divisão" c).
Proof.
  split; [|split; [|split]].
  - intros ts c la lz rest va vz Ha Hz H0.
    unfold dividir, bind, obter_numero, ler_valido. cbn [ler_valido_aux].
    rewrite Ha. cbn [ler_valido_aux]. rewrite Hz. cbn beta iota. rewrite H0. reflexivity.
  - intros ts c la lz rest va a vz Ha Ha' Hz H0.
    unfold resto_divisao, bind, obter_numero, ler_valido. cbn [ler_valido_aux].
    rewrite Ha, Ha'. cbn [lift ler_valido_aux]. rewrite Hz. cbn beta iota.
    rewrite H0. reflexivity.
  - exact dividir_Ret.
  - exact resto_divisao_Ret.
Qed.

(** C4, counterexample: dividing 6 by 0 does not end in an error; the
    method asks again and records 6 / 2. *)
Lemma divisao_por_zero_pergunta_de_novo :
  dividir "t" inicial ["6"; "0"; "2"; ""]
  = Ret tt (adicionar_ao_historico "t" "6 ÷ 2" (VNum (PFloat (F64.of_ratio false 3 1))) "Divisão" inicial) [].
Proof. vm_compute. reflexivity. Qed.

Lemma divisor_zero_repetido_witness :
  dividir "t" inicial ["6"; "0"; "2"; ""] = dividir "t" inicial ["6"; "2"; ""] /\
  resto_divisao "t" inicial ["7"; "0"; "2"; ""] = resto_divisao "t" inicial ["7"; "2"; ""] /\
  (exists x y r, eq0 y = false /\ truediv x y = Ok r /\
     adicionar_ao_historico "t" "6 ÷ 2" (VNum (PFloat (F64.of_ratio false 3 1))) "Divisão" inicial
     = adicionar_ao_historico "t" (formatar_numero x ++ " ÷ " ++ formatar_numero y) (VNum r) "Divisão" inicial) /\
  (exists a b, b <> 0 /\
     adicionar_ao_historico "t" "7 % 2" (VNum (PInt 1)) "Resto Divisão" inicial
     = adicionar_ao_historico "t" (str_int a ++ " % " ++ str_int b) (VNum (PInt (a mod b))) "Resto Divisão" inicial).
Proof.
  split; [|split; [|split]].
  - apply (proj1 divisor_zero_repetido "t" inicial "6" "0" ["2"; ""] (VNum (PInt 6)) (VNum (PInt 0)));
      vm_compute; reflexivity.
  - apply (proj1 (proj2 divisor_zero_repetido) "t" inicial "7" "0" ["2"; ""] (VNum (PInt 7)) 7 (VNum (PInt 0)));
      vm_compute; reflexivity.
  - apply (proj1 (proj2 (proj2 divisor_zero_repetido)) "t" inicial ["6"; "2"; ""] tt _ []).
    vm_compute. reflexivity.
  - apply (proj2 (proj2 (proj2 divisor_zero_repetido)) "t" inicial ["7"; "2"; ""] tt _ []).
    vm_compute. reflexivity.
Defined.

(** *** The range of the factorial *)

(** C5 (amended).  [fatorial] accepts only [0 <= n <= 20]: a line whose
    [int()] is negative (error message) or greater than 20 (warning
    message) is rejected, exactly as if it had not been typed, and the
    number is asked again.  An [n] in range records [n!] with kind
    ["Fatorial"], and nothing else is ever recorded. *)
Theorem fatorial_intervalo :
  (forall ts c l rest v n, numero_da_linha c l = Some v -> int_of_value v = Ok n ->
     (n < 0 \/ 20 < n) -> fatorial ts c (l :: rest) = fatorial ts c rest) /\
  (forall ts c l k rest v n, numero_da_linha c l = Some v -> int_of_value v = Ok n -> 0 <= n <= 20 ->
     fatorial ts c (l :: k :: rest)
     = Ret tt (adicionar_ao_historico ts (str_int n ++ "!") (VNum (PInt (factorial n))) "Fatorial" c) rest) /\
  (forall ts c inp u c' inp', fatorial ts c inp = Ret u c' inp' ->
     exists n, 0 <= n <= 20 /\
       c' = adicionar_ao_historico ts (str_int n ++ "!") (VNum (PInt (factorial n))) "Fatorial" c) /\
  factorial 0 = 1 /\ factorial 5 = 120 /\ factorial 20 = 2432902008176640000.
Proof.
  split; [|split; [|split]].
  - intros ts c l rest v n Hl Hn Hr.
    unfold fatorial, bind, ler_valido. cbn [ler_valido_aux]. rewrite Hl. cbn beta iota.
    rewrite Hn. unfold res_map, res_bind.
    destruct (Z.ltb_spec n 0); [reflexivity|]. destruct (Z.ltb_spec 20 n); [reflexivity|]. lia.
  - intros ts c l k rest v n Hl Hn Hr.
    unfold fatorial, bind, ler_valido. cbn [ler_valido_aux]. rewrite Hl. cbn beta iota.
    rewrite Hn. unfold res_map, res_bind.
    destruct (Z.ltb_spec n 0); [lia|]. destruct (Z.ltb_spec 20 n); [lia|]. reflexivity.
  - exact fatorial_Ret.
  - vm_compute. auto.
Qed.

(** C5, counterexample: 21 is not computed; it is rejected, and the next
    number, 5, is the one recorded. *)
Lemma fatorial_21_recusado :
  fatorial "t" inicial ["21"; "5"; ""]
  = Ret tt (adicionar_ao_historico "t" "5!" (VNum (PInt 120)) "Fatorial" inicial) [].
Proof. vm_compute. reflexivity. Qed.

Lemma fatorial_intervalo_witness :
  fatorial "t" inicial ["21"; "5"; ""] = fatorial "t" inicial ["5"; ""] /\
  fatorial "t" inicial ["5"; ""]
  = Ret tt (adicionar_ao_historico "t" (str_int 5 ++ "!") (VNum (PInt (factorial 5))) "Fatorial" inicial) [] /\
  (exists n, 0 <= n <= 20 /\
     adicionar_ao_historico "t" "5!" (VNum (PInt 120)) "Fatorial" inicial
     = adicionar_ao_historico "t" (str_int n ++ "!") (VNum (PInt (factorial n))) "Fatorial" inicial).
Proof.
  split; [|split].
  - apply (proj1 fatorial_intervalo "t" inicial "21" ["5"; ""] (VNum (PInt 21)) 21).
    + vm_compute. reflexivity.
    + reflexivity.
    + right; lia.
  - apply (proj1 (proj2 fatorial_intervalo) "t" inicial "5" "" [] (VNum (PInt 5)) 5).
    + vm_compute. reflexivity.
    + reflexivity.
    + lia.
  - apply (proj1 (proj2 (proj2 fatorial_intervalo)) "t" inicial ["21"; "5"; ""] tt _ []).
    vm_compute. reflexivity.
Defined.

(** C6: before evaluation, every ['M'] of the text is replaced by [str]
    of the memory, every ['U'] by [str] of the last result ([0] while there
    is none), wherever they occur, and then every ['^'] by ["**"]: the three
    replacements act as one simultaneous substitution [substituir] (the
    inserted numbers contain neither ['U'] nor ['^']).  With memory [7],
    the expression ["M + 1"] is evaluated as ["7 + 1"] and gives [8]. *)
Theorem substituicao_textual :
  (forall c e m, memoria c = VNum m ->
     (ultimo_resultado c = VNone \/ exists u, ultimo_resultado c = VNum u) ->
     texto_avaliado c e = Ok (substituir (str_num m) (str_num (ultimo_ou_zero c)) e)) /\
  calcular_expressao "t" (set_memoria (VNum (PInt 7)) inicial) ["M + 1"; ""]
  = Ret (mk_info 1 (Some "7 + 1"))
        (adicionar_ao_historico "t" "7 + 1" (VNum (PInt 8)) "Expressão"
           (set_memoria (VNum (PInt 7)) inicial)) [].
Proof.
  split.
  - intros c e m Hm Hu. unfold texto_avaliado, ultimo_ou_zero. rewrite Hm.
    destruct Hu as [Hu|[u Hu]]; rewrite Hu; cbn [is_set str_value res_bind];
      rewrite replace_substituir by apply str_num_ok; reflexivity.
  - vm_compute. reflexivity.
Qed.

Lemma substituicao_textual_witness :
  texto_avaliado (set_memoria (VNum (PInt 7)) inicial) "Max U^2"
  = Ok (substituir "7" "0" "Max U^2") /\
  substituir "7" "0" "Max U^2" = "7ax 0**2".
Proof.
  split.
  - apply (proj1 substituicao_textual (set_memoria (VNum (PInt 7)) inicial) "Max U^2" (PInt 7)).
    + reflexivity.
    + left; reflexivity.
  - reflexivity.
Defined.

(** C7 (amended): when the expression is evaluated without error, the
    entry recorded is made of the evaluated text [s] (['M'] and ['U']
    already replaced by numbers, ['^'] by ["**"]) in which every ["**"] is
    turned into ['^'], with the value computed and the kind ["Expressão"];
    it is not the text the user typed.  This holds whatever [eval] does
    (any evaluator [avaliar], whatever state and input it leaves);
    [calcular_expressao] is the instance [calcular_expressao_com eval_py]. *)
Theorem expressao_registrada (avaliar : avaliador) ts c l inp i c' inp' :
  calcular_expressao_com avaliar ts c (l :: inp) = Ret i c' inp' -> gravadas i = 1%nat ->
  exists s c1 inp1 v, texto_avaliado c (strip l) = Ok s /\ avaliar s c inp = Ret (Ok v) c1 inp1 /\
    avaliado i = Some s /\
    c' = adicionar_ao_historico ts (replace2 "*" "*" "^" s) v "Expressão" c1.
Proof.
  intros H G. unfold calcular_expressao_com, bind, input, ret in H.
  destruct (String.eqb (strip l) EmptyString).
  - destruct inp; inversion H; subst; discriminate G.
  - unfold bloco_try_com in H.
    destruct (texto_avaliado c (strip l)) as [s| |] eqn:E; [|destruct inp; inversion H; subst; discriminate G|discriminate H].
    destruct (avaliar s c inp) as [[v| |] c1 inp1|x c1|] eqn:A; try discriminate H.
    + destruct inp1 as [|l2 inp2]; [discriminate H|]. injection H as <- <- _.
      exists s, c1, (l2 :: inp2), v. auto.
    + destruct inp1 as [|l2 inp2]; [discriminate H|]. injection H as <- _ _. discriminate G.
Qed.

(** C7, counterexample: with memory [3], the expression ["M^2"] is
    recorded as ["3^2"], and ["2**3"] is recorded as ["2^3"]. *)
Lemma expressao_registrada_texto_avaliado :
  calcular_expressao "t" (set_memoria (VNum (PInt 3)) inicial) ["M^2"; ""]
  = Ret (mk_info 1 (Some "3**2"))
        (adicionar_ao_historico "t" "3^2" (VNum (PInt 9)) "Expressão"
           (set_memoria (VNum (PInt 3)) inicial)) [] /\
  calcular_expressao "t" inicial ["2**3"; ""]
  = Ret (mk_info 1 (Some "2**3"))
        (adicionar_ao_historico "t" "2^3" (VNum (PInt 8)) "Expressão" inicial) [].
Proof. split; vm_compute; reflexivity. Qed.

Lemma expressao_registrada_witness :
  exists s c1 inp1 v, texto_avaliado (set_memoria (VNum (PInt 3)) inicial) "M^2" = Ok s /\
    eval_py s (set_memoria (VNum (PInt 3)) inicial) [""] = Ret (Ok v) c1 inp1 /\
    avaliado (mk_info 1 (Some "3**2")) = Some s /\
    adicionar_ao_historico "t" "3^2" (VNum (PInt 9)) "Expressão" (set_memoria (VNum (PInt 3)) inicial)
    = adicionar_ao_historico "t" (replace2 "*" "*" "^" s) v "Expressão" c1.
Proof.
  apply (expressao_registrada eval_py "t" (set_memoria (VNum (PInt 3)) inicial) "M^2" [""]
           (mk_info 1 (Some "3**2")) _ []).
  - vm_compute. reflexivity.
  - reflexivity.
Defined.




(** C9 (amended): the table of operations per kind has one line per kind
    of the history with its number of entries ([tabela], kinds in order of
    first occurrence), sorted by decreasing count; the sort is stable, so
    kinds with the same count stay in order of first occurrence in the
    history, not in order of name. *)
Theorem contagem_por_tipo_estavel h :
  Permutation (contagem_por_tipo h) (tabela (map tipo h)) /\
  Sorted (fun a b => snd b <= snd a) (contagem_por_tipo h) /\
  (forall k, filter (fun p => Z.eqb (snd p) k) (contagem_por_tipo h)
             = filter (fun p => Z.eqb (snd p) k) (tabela (map tipo h))).
Proof.
  unfold contagem_por_tipo.
  change (contar h []) with (contar h (tabela [])). rewrite contar_tabela. cbn [app].
  split; [|split].
  - apply ordenar_permutacao.
  - apply ordenar_ordenada.
  - intros k. apply ordenar_filtro.
Qed.

(** C9, counterexample: with one subtraction and one addition, the tie is
    listed in the order the kinds entered the history; reversing the
    history reverses the listing. *)
Lemma contagem_empate_ordem_de_insercao :
  contagem_por_tipo [mk_entrada "t" "5 - 1" (VNum (PInt 4)) "Subtração";
                     mk_entrada "t" "1 + 1" (VNum (PInt 2)) "Soma"]
  = [("Subtração", 1); ("Soma", 1)] /\
  contagem_por_tipo [mk_entrada "t" "1 + 1" (VNum (PInt 2)) "Soma";
                     mk_entrada "t" "5 - 1" (VNum (PInt 4)) "Subtração"]
  = [("Soma", 1); ("Subtração", 1)].
Proof. split; vm_compute; reflexivity. Qed.

(** C10, atomicity broken: an expression that changes the memory through
    [setattr] and then divides by zero is reported as a division by zero
    and leaves the memory changed; and ['a'] is recorded (history, last
    result and counter updated) although formatting its value raises
    [AttributeError], so the message shown is the one of an invalid
    expression. *)
Lemma falha_altera_estado :
  calcular_expressao "t" inicial ["setattr(self,'_memoria',5) or 1/0"; ""]
  = Ret (mk_info 0 (Some "setattr(self,'_memoria',5) or 1/0"))
        (set_memoria (VNum (PInt 5)) inicial) [] /\
  calcular_expressao "t" inicial ["'a'"; ""]
  = Ret (mk_info 1 (Some "'a'"))
        (adicionar_ao_historico "t" "'a'" (VStr "a") "Expressão" inicial) [] /\
  formatar (VStr "a") = Raise AttributeError.
Proof. split; [|split]; vm_compute; reflexivity. Qed.

End Teoremas.

(* ================================================================== *)
(** ** Further properties of the calculator *)

Module Extras.

Import PyStr Py Session Ops Expr Menu Espec Lemas Caracteres.
Local Open Scope string_scope.

(** *** Reading a number *)


Lemma upper_char_U ch : upper_char ch = "U"%char -> ch = "U"%char \/ ch = "u"%char.
Proof.
  destruct ch as [[] [] [] [] [] [] [] []]; vm_compute; intros H;
    first [discriminate H | left; reflexivity | right; reflexivity].
Qed.

Lemma upper_U s : upper s = "U" -> s = "U" \/ s = "u".
Proof.
  destruct s as [|ch [|ch2 t]]; cbn [upper]; intros H; try discriminate.
  injection H as H. destruct (upper_char_U ch H) as [->| ->]; auto.
Qed.



(** ['U'] while there is no last result is not a number: [float('U')]
    fails and [_obter_numero] asks again. *)
Theorem obter_numero_U_sem_resultado c l rest :
  ultimo_resultado c = VNone -> upper (strip l) = "U" ->
  numero_da_linha c l = None /\ obter_numero c (l :: rest) = obter_numero c rest.
Proof.
  intros Hu HU.
  assert (N : numero_da_linha c l = None).
  { unfold numero_da_linha; cbv zeta.
    destruct (upper_U _ HU) as [E|E]; rewrite E, Hu; reflexivity. }
  split; [exact N|]. unfold obter_numero, ler_valido. cbn [ler_valido_aux]. rewrite N. reflexivity.
Qed.

Lemma obter_numero_U_sem_resultado_witness :
  numero_da_linha inicial " u " = None /\ obter_numero inicial [" u "; "4"] = obter_numero inicial ["4"].
Proof. apply obter_numero_U_sem_resultado; reflexivity. Defined.



(** *** The kind of number each operation records *)

Lemma truediv_float a b r : truediv a b = Ok r -> exists f, r = PFloat f.
Proof.
  destruct a as [x|fa], b as [y|fb]; unfold truediv.
  - destruct (Z.eqb y 0); [discriminate|].
    destruct (F64.of_ratio _ _ _); intros H; try discriminate; injection H as <-; eauto.
  - unfold to_float, res_bind. destruct (F64.of_int x); [|discriminate].
    destruct (F64.is_zero fb); intros H; [discriminate|]. injection H as <-; eauto.
  - unfold to_float, res_bind. destruct (F64.of_int y) as [fy|]; [|discriminate].
    destruct (F64.is_zero fy); intros H; [discriminate|]. injection H as <-; eauto.
  - unfold to_float, res_bind.
    destruct (F64.is_zero fb); intros H; [discriminate|]. injection H as <-; eauto.
Qed.

Lemma sqrt_float a r : sqrt a = Ok r -> exists f, r = PFloat f.
Proof.
  unfold sqrt, res_bind. destruct (to_float a) as [fa| |]; try discriminate.
  destruct (F64.ltz fa); intros H; [discriminate|]. injection H as <-; eauto.
Qed.

(** Division, percentage and square root always record a float (even
    [6 / 2], [50% de 200] and [sqrt(9)]); the remainder and the factorial
    always record an [int]. *)
Theorem tipo_do_resultado ts c inp u c' inp' :
  (dividir ts c inp = Ret u c' inp' -> exists f, ultimo_resultado c' = VNum (PFloat f)) /\
  (porcentagem ts c inp = Ret u c' inp' -> exists f, ultimo_resultado c' = VNum (PFloat f)) /\
  (raiz_quadrada ts c inp = Ret u c' inp' -> exists f, ultimo_resultado c' = VNum (PFloat f)) /\
  (resto_divisao ts c inp = Ret u c' inp' -> exists z, ultimo_resultado c' = VNum (PInt z)) /\
  (fatorial ts c inp = Ret u c' inp' -> exists z, ultimo_resultado c' = VNum (PInt z)).
Proof.
  split; [|split; [|split; [|split]]]; intros H.
  - apply dividir_Ret in H as (x & y & r & _ & Ht & ->).
    apply truediv_float in Ht as [f ->]. eexists; reflexivity.
  - unfold porcentagem, concluir in H; inv_passos; ok_passos.
    match goal with Ht : truediv _ _ = Ok _ |- _ => apply truediv_float in Ht as [f ->] end.
    eexists; reflexivity.
  - unfold raiz_quadrada, concluir in H; inv_passos.
    match goal with Ht : sqrt _ = Ok _ |- _ => apply sqrt_float in Ht as [f ->] end.
    eexists; reflexivity.
  - apply resto_divisao_Ret in H as (a & b & _ & ->). eexists; reflexivity.
  - apply fatorial_Ret in H as (n & _ & ->). eexists; reflexivity.
Qed.

Lemma tipo_do_resultado_witness :
  exists f, ultimo_resultado
    (adicionar_ao_historico "t" "6 ÷ 2" (VNum (PFloat (F64.of_ratio false 3 1))) "Divisão" inicial)
    = VNum (PFloat f).
Proof.
  apply (proj1 (tipo_do_resultado "t" inicial ["6"; "2"; ""] tt _ [])).
  vm_compute. reflexivity.
Defined.

(** *** The remainder *)



(** *** The square root *)



(** *** Integer arithmetic is exact *)



(** *** The memory menu *)



(** *** Reset *)

(** ["R"] brings back the state of [__init__], except [_max_historico],
    which it does not touch. *)
Theorem resetar_calculadora_inicial c l rest :
  resetar_calculadora c (l :: rest) = Ret nada (set_max (max_historico c) inicial) rest /\
  (max_historico c = 50 -> resetar_calculadora c (l :: rest) = Ret nada inicial rest).
Proof.
  split; [reflexivity|]. intros Hm.
  destruct c as [m u h t x]; cbn in Hm; subst x. reflexivity.
Qed.

Lemma resetar_calculadora_inicial_witness :
  resetar_calculadora (adicionar_ao_historico "t" "1 + 1" (VNum (PInt 2)) "Soma" inicial) [""]
  = Ret nada (set_max 50 inicial) [] /\
  (50 = 50 -> resetar_calculadora (adicionar_ao_historico "t" "1 + 1" (VNum (PInt 2)) "Soma" inicial) [""]
              = Ret nada inicial []).
Proof. apply resetar_calculadora_inicial. Defined.

(** *** The main loop *)







(** *** The capacity of the history *)

(** [_adicionar_ao_historico] removes at most one entry: the history grows
    by one, or keeps its length when it exceeds [_max_historico] after the
    append.  With a capacity of at least 1 the new entry is the last one;
    with a capacity of 0 or less the history stays empty. *)
Theorem adicionar_ao_historico_capacidade ts e r tp c :
  Z.of_nat (length (historico (adicionar_ao_historico ts e r tp c)))
  = (if Z.ltb (max_historico c) (Z.of_nat (length (historico c)) + 1)
     then Z.of_nat (length (historico c)) else Z.of_nat (length (historico c)) + 1) /\
  (1 <= max_historico c ->
     exists h, historico (adicionar_ao_historico ts e r tp c) = app h [mk_entrada ts e r tp]) /\
  (max_historico c <= 0 -> historico c = [] -> historico (adicionar_ao_historico ts e r tp c) = []).
Proof.
  unfold adicionar_ao_historico, limitar; cbn [historico max_historico].
  rewrite length_app. cbn [length]. rewrite Nat2Z.inj_add. cbn [Z.of_nat Pos.of_succ_nat].
  split; [|split].
  - destruct (Z.ltb_spec (max_historico c) (Z.of_nat (length (historico c)) + 1)); [|rewrite length_app; cbn [length]; lia].
    destruct (historico c) as [|x h]; cbn [app tl length]; [reflexivity|].
    rewrite length_app; cbn [length]; lia.
  - intros H1. destruct (Z.ltb_spec (max_historico c) (Z.of_nat (length (historico c)) + 1)).
    + destruct (historico c) as [|x h]; cbn [length Z.of_nat] in *; [lia|]. exists h. reflexivity.
    + eauto.
  - intros H0 ->. cbn. destruct (Z.ltb_spec (max_historico c) 1); [reflexivity | lia].
Qed.

Lemma adicionar_ao_historico_capacidade_witness :
  Z.of_nat (length (historico (adicionar_ao_historico "t" "1 + 1" (VNum (PInt 2)) "Soma" (set_max 0 inicial))))
  = (if Z.ltb (max_historico (set_max 0 inicial)) (Z.of_nat (length (historico (set_max 0 inicial))) + 1)
     then Z.of_nat (length (historico (set_max 0 inicial)))
     else Z.of_nat (length (historico (set_max 0 inicial))) + 1) /\
  (1 <= max_historico (set_max 0 inicial) ->
     exists h, historico (adicionar_ao_historico "t" "1 + 1" (VNum (PInt 2)) "Soma" (set_max 0 inicial))
               = app h [mk_entrada "t" "1 + 1" (VNum (PInt 2)) "Soma"]) /\
  (max_historico (set_max 0 inicial) <= 0 -> historico (set_max 0 inicial) = [] ->
     historico (adicionar_ao_historico "t" "1 + 1" (VNum (PInt 2)) "Soma" (set_max 0 inicial)) = []).
Proof. exact (adicionar_ao_historico_capacidade "t" "1 + 1" (VNum (PInt 2)) "Soma" (set_max 0 inicial)). Defined.

(** Successive calls of [_adicionar_ao_historico], on a history within
    its capacity [_max_historico], keep exactly the last [_max_historico]
    entries appended, in the order of insertion: the oldest are removed
    first, and the capacity itself does not change. *)
Theorem adicionar_ao_historico_fifo es c :
  (length (historico c) <= Z.to_nat (max_historico c))%nat ->
  historico (fold_left acrescentar es c)
  = ultimas (Z.to_nat (max_historico c)) (app (historico c) es) /\
  (length (historico (fold_left acrescentar es c)) <= Z.to_nat (max_historico c))%nat.
Proof.
  intros H. destruct (acrescentar_varios es c H) as [Hh _]. split; [exact Hh|].
  rewrite Hh. unfold ultimas. rewrite length_skipn. lia.
Qed.

Lemma adicionar_ao_historico_fifo_witness :
  let es := map (fun n => mk_entrada "t" (str_int (Z.of_nat n)) (VNum (PInt (Z.of_nat n))) "Soma")
                (seq 0 60) in
  historico (fold_left acrescentar es inicial) = skipn 10 es /\
  (length (historico (fold_left acrescentar es inicial)) <= 50)%nat.
Proof.
  cbv zeta.
  destruct (adicionar_ao_historico_fifo
              (map (fun n => mk_entrada "t" (str_int (Z.of_nat n)) (VNum (PInt (Z.of_nat n))) "Soma")
                   (seq 0 60)) inicial) as [H1 H2]; [vm_compute; lia|].
  split; [rewrite H1; vm_compute; reflexivity | exact H2].
Defined.

(** *** Showing the history *)





(** *** Options that only show or save *)

Lemma formatar_sem_Unk v : formatar v <> Unmodelled.
Proof. destruct v; discriminate. Qed.

Lemma formatar_todos_sem_Unk l : formatar_todos l <> Unmodelled.
Proof.
  induction l as [|e l IH]; simpl; [discriminate|].
  destruct (resultado e); simpl; [exact IH|discriminate ..].
Qed.

(** ["H"], ["S"] and ["G"] never change the calculator: each one consumes
    some lines and returns the same state, or raises with the same state.
    ["C"] empties the history and keeps the memory, the last result, the
    count of operations and the capacity. *)
Theorem consultas_preservam_estado c inp :
  (forall m, In m [exibir_historico; exibir_estatisticas; salvar_historico] ->
     (exists pre rest, inp = app pre rest /\ m c inp = Ret nada c rest) \/
     (exists e, m c inp = Exn e c)) /\
  (exists c', (limpar_historico c inp = Exn EOFError c' \/ exists rest, limpar_historico c inp = Ret nada c' rest) /\
     historico c' = [] /\ memoria c' = memoria c /\ ultimo_resultado c' = ultimo_resultado c /\
     total_operacoes c' = total_operacoes c /\ max_historico c' = max_historico c).
Proof.
  split.
  - intros m Hm. simpl in Hm.
    destruct Hm as [<-|[<-|[<-|[]]]].
    + unfold exibir_historico, bind, get, lift, input, ret. cbv beta iota.
      assert (Hf := formatar_todos_sem_Unk (rev (historico c))).
      destruct (formatar_todos (rev (historico c))) as [[]| |].
      * destruct inp as [|l rest]; [right; eauto|left; exists [l], rest; auto].
      * right; eauto.
      * congruence.
    + unfold exibir_estatisticas, bind, get, lift, input, ret. cbv beta iota.
      assert (Hu := formatar_sem_Unk (ultimo_resultado c)).
      assert (Hm := formatar_sem_Unk (memoria c)).
      destruct (is_set (ultimo_resultado c));
        [destruct (formatar (ultimo_resultado c)); [|right; eauto|congruence]|];
        (destruct (formatar (memoria c)); [|right; eauto|congruence]);
        (destruct inp as [|ln rest]; [right; eauto|left; exists [ln], rest; auto]).
    + unfold salvar_historico, bind, get, input, ret. cbv beta iota.
      destruct (historico c) as [|h0 hs].
      * destruct inp as [|ln rest]; [right; eauto|left; exists [ln], rest; auto].
      * destruct inp as [|l [|l' rest]]; [right; eauto|right; eauto|left; exists [l; l'], rest; auto].
  - exists (set_historico [] c).
    split; [|repeat split].
    unfold limpar_historico, bind, modify, input, ret. cbv beta iota.
    destruct inp as [|l rest]; [left; reflexivity|right; eauto].
Qed.

Lemma consultas_preservam_estado_witness :
  exibir_estatisticas (adicionar_ao_historico "t" "1 + 1" (VNum (PInt 2)) "Soma" inicial) [""; "1"]
  = Ret nada (adicionar_ao_historico "t" "1 + 1" (VNum (PInt 2)) "Soma" inicial) ["1"].
Proof.
  destruct (proj1 (consultas_preservam_estado (adicionar_ao_historico "t" "1 + 1" (VNum (PInt 2)) "Soma" inicial) [""; "1"])
              exibir_estatisticas) as [[pre [rest [Hi Hr]]]|[e He]].
  - right; left; reflexivity.
  - rewrite Hr. vm_compute in Hr. injection Hr as <-. reflexivity.
  - vm_compute in He. discriminate.
Defined.

End Extras.
